(** * nova/network/service.py: network services over a ledger and a driver

    The module is the control logic of nova's network hosts.  Every
    operation is a short sequence of calls into two collaborators, the
    datastore ([nova.db]) and the host network driver
    ([nova.network.linux_net], bound to [_driver]).  The embedding keeps that
    shape: an operation is a term of a small command monad whose nodes are
    the collaborator calls, in program order, and [run] interprets it against
    any pair of collaborators while recording the calls that were issued.  A
    Python exception is an [Err] outcome that skips the rest of the
    operation and leaves every earlier effect in place. *)

From stdpp Require Import base option list strings gmap fin_maps.
From Stdlib Require Import ZArith.

Local Open Scope Z_scope.
Local Open Scope string_scope.

(** ** Values, exceptions and records *)

(** The Python values the module stores in dictionaries or returns. *)
Inductive value : Type :=
| VNone
| VBool (b : bool)
| VInt (z : Z)
| VStr (s : string).

(** The exception classes the module names, and the ones the collaborators
    are documented to raise.  [OtherError] stands for any other failure of a
    collaborator. *)
Inductive exn : Type :=
| NotFound (msg : string)
| NotImplementedError
| AddressAlreadyAllocated
| AddressNotAllocated
| AddressSpaceExhausted
| OtherError (msg : string).

Inductive result (A : Type) : Type :=
| Ok (a : A)
| Err (e : exn).
Arguments Ok {A} a.
Arguments Err {A} e.

(** The request context; Python's [None] is [None]. *)
Definition context : Type := option string.

(** The fields of a network row that the module reads. *)
Record network_ref : Type := Network {
  net_id : Z;
  net_kind : option string;
  net_node_name : option string;
  net_injected : bool;
  net_network_str : string;
  net_netmask : string;
  net_bridge : string;
  net_gateway : string;
  net_broadcast : string;
  net_dns : string;
  net_vlan : Z;
  net_vpn_public_ip_str : string;
  net_vpn_public_port : Z;
  net_vpn_private_ip_str : string
}.

(** The fields of a fixed-ip row. *)
Record fixed_ip_ref : Type := FixedIp {
  fip_network_id : Z;
  fip_instance_id : option string;
  fip_allocated : bool;
  fip_leased : bool
}.

(** The flags the module reads.  [node_name] is defined by [nova.flags];
    the others are defined at the top of the module. *)
Module flags.
Record t : Type := Flags {
  node_name : string;
  network_type : string;
  flat_network_bridge : string;
  flat_network_network : string;
  flat_network_netmask : string;
  flat_network_gateway : string;
  flat_network_broadcast : string;
  flat_network_dns : string;
  num_networks : Z
}.

(** The defaults given to [flags.DEFINE_*], for a host called [node]. *)
Definition defaults (node : string) : t :=
  {| node_name := node;
     network_type := "flat";
     flat_network_bridge := "br100";
     flat_network_network := "192.168.0.0";
     flat_network_netmask := "255.255.255.0";
     flat_network_gateway := "192.168.0.1";
     flat_network_broadcast := "192.168.0.255";
     flat_network_dns := "8.8.4.4";
     num_networks := 1000 |}.
End flags.

(** ** Collaborator calls *)

(** The functions of [nova.db] that the module calls, with the arguments of
    the call sites. *)
Module db.
Inductive call : Type :=
| project_get_network (ctx : context) (project_id : string)
| network_get (network_id : Z)
| network_set_host (ctx : context) (network_id : Z) (host : string)
| network_update (ctx : context) (network_id : Z) (net : gmap string value)
| network_ensure_indexes (ctx : context) (n : Z)
| network_get_vpn_ip_address (ctx : context) (network_id : Z)
| instance_is_vpn (ctx : context) (instance_id : string)
| fixed_ip_allocate_address (ctx : context) (network_id : Z)
| fixed_ip_instance_associate (ctx : context) (address instance_id : string)
| fixed_ip_instance_disassociate (ctx : context) (address : string)
| fixed_ip_deallocate (ctx : context) (address : string)
| fixed_ip_get_by_address (ctx : context) (address : string)
| fixed_ip_lease (ctx : context) (address : string)
| fixed_ip_release (ctx : context) (address : string)
| floating_ip_allocate_address (ctx : context) (host project_id : string)
| floating_ip_fixed_ip_associate (ctx : context) (floating fixed : string)
| floating_ip_disassociate (ctx : context) (floating : string)
| floating_ip_deallocate (ctx : context) (floating : string).

(** What each call hands back to the module. *)
Definition ret (c : call) : Type :=
  match c with
  | project_get_network _ _ | network_get _ => network_ref
  | network_set_host _ _ _ => string
  | network_get_vpn_ip_address _ _ => string
  | instance_is_vpn _ _ => bool
  | fixed_ip_allocate_address _ _ => string
  | fixed_ip_get_by_address _ _ => fixed_ip_ref
  | floating_ip_allocate_address _ _ _ => string
  | floating_ip_disassociate _ _ => string
  | _ => unit
  end.
End db.

(** The functions of [linux_net] that the module calls through [_driver]. *)
Module _driver.
Inductive call : Type :=
| ensure_vlan_bridge (vlan : Z) (bridge : string)
| ensure_vlan_forward (public_ip : string) (port : Z) (private_ip : string)
| bind_floating_ip (floating : string)
| unbind_floating_ip (floating : string)
| ensure_floating_forward (floating fixed : string)
| remove_floating_forward (floating fixed : string).
End _driver.

Inductive level : Type := WARN | DEBUG.

(** One entry of the call record: a datastore call, a driver command or a
    log line. *)
Inductive event : Type :=
| EDb (c : db.call)
| EDriver (c : _driver.call)
| ELog (lvl : level) (msg : string).

(** ** The command monad *)

Inductive prog (A : Type) : Type :=
| Ret (a : A)
| Raise (e : exn)
| Db (c : db.call) (k : db.ret c -> prog A)
| Driver (c : _driver.call) (k : unit -> prog A)
| Log (lvl : level) (msg : string) (k : prog A).
Arguments Ret {A} a.
Arguments Raise {A} e.
Arguments Db {A} c k.
Arguments Driver {A} c k.
Arguments Log {A} lvl msg k.

Fixpoint bind {A B : Type} (p : prog A) (f : A -> prog B) : prog B :=
  match p with
  | Ret a => f a
  | Raise e => Raise e
  | Db c k => Db c (fun x => bind (k x) f)
  | Driver c k => Driver c (fun x => bind (k x) f)
  | Log lvl msg k => Log lvl msg (bind k f)
  end.

#[export] Instance prog_ret : MRet prog := @Ret.
#[export] Instance prog_bind : MBind prog := fun A B f p => bind p f.

Definition call_db (c : db.call) : prog (db.ret c) := Db c Ret.
Definition call_driver (c : _driver.call) : prog unit := Driver c Ret.
Definition logging (lvl : level) (msg : string) : prog unit :=
  Log lvl msg (Ret tt).

(** ** Running an operation against collaborators *)

Section Run.
Context {L D : Type}.

(** A datastore over states [L] and a driver over states [D].  A call
    returns or raises, and may change its collaborator's state either
    way. *)
Variable on_db : forall c : db.call, L -> result (db.ret c) * L.
Variable on_driver : _driver.call -> D -> result unit * D.

Record outcome (A : Type) : Type := Outcome {
  res : result A;
  ledger : L;
  driver : D;
  trace : list event
}.
Arguments Outcome {A} res ledger driver trace.
Arguments res {A} o.
Arguments ledger {A} o.
Arguments driver {A} o.
Arguments trace {A} o.

Definition logged {A : Type} (ev : event) (o : outcome A) : outcome A :=
  Outcome (res o) (ledger o) (driver o) (ev :: trace o).

Fixpoint run {A : Type} (p : prog A) (l : L) (d : D) : outcome A :=
  match p with
  | Ret a => Outcome (Ok a) l d []
  | Raise e => Outcome (Err e) l d []
  | Db c k =>
      match on_db c l with
      | (Ok x, l') => logged (EDb c) (run (k x) l' d)
      | (Err e, l') => Outcome (Err e) l' d [EDb c]
      end
  | Driver c k =>
      match on_driver c d with
      | (Ok x, d') => logged (EDriver c) (run (k x) l d')
      | (Err e, d') => Outcome (Err e) l d' [EDriver c]
      end
  | Log lvl msg k => logged (ELog lvl msg) (run k l d)
  end.
End Run.

Arguments Outcome {L D A} res ledger driver trace.
Arguments res {L D A} o.
Arguments ledger {L D A} o.
Arguments driver {L D A} o.
Arguments trace {L D A} o.

(** ** The module *)

Inductive service_class : Type :=
| BaseNetworkService
| FlatNetworkService
| VlanNetworkService.

(** Python's truth test on an optional string: [None] and the empty
    string are false. *)
Definition truthy (s : option string) : bool :=
  match s with
  | None => false
  | Some s => negb (String.eqb s "")
  end.

Definition opt_value (s : option string) : value :=
  match s with
  | None => VNone
  | Some s => VStr s
  end.

Definition type_to_class (FLAGS : flags.t) (network_type : option string)
  : prog service_class :=
  network_type ←
    (if truthy network_type
     then mret (default "" network_type)
     else
       logging WARN ("Network type couldn't be determined, using "
                       +:+ flags.network_type FLAGS) ;;
       mret (flags.network_type FLAGS));
  if String.eqb network_type "flat" then mret FlatNetworkService
  else if String.eqb network_type "vlan" then mret VlanNetworkService
  else Raise (NotFound ("Couldn't find " +:+ network_type
                          +:+ " network type")).

Definition get_host_for_project (project_id : string) : prog value :=
  network ← call_db (db.project_get_network None project_id);
  mret (opt_value (net_node_name network)).

(** *** class BaseNetworkService *)
Module Base.
(** [self._on_set_network_host] is the one call the class makes through
    [self] that its subclasses override; the method takes the resolved
    hook as [self_on_set_network_host]. *)
Definition set_network_host (FLAGS : flags.t)
    (self_on_set_network_host : context -> Z -> prog value)
    (project_id : string) (context : context) : prog value :=
  network_ref ← call_db (db.project_get_network context project_id);
  let network_id := net_id network_ref in
  host ← call_db (db.network_set_host context network_id
                    (flags.node_name FLAGS));
  self_on_set_network_host context network_id ;;
  mret (VStr host).

Definition allocate_fixed_ip (project_id instance_id : string)
    (context : context) : prog value :=
  network_ref ← call_db (db.project_get_network context project_id);
  address ← call_db (db.fixed_ip_allocate_address context
                       (net_id network_ref));
  call_db (db.fixed_ip_instance_associate context address instance_id) ;;
  mret (VStr address).

Definition deallocate_fixed_ip (address : string) (context : context)
  : prog value :=
  call_db (db.fixed_ip_deallocate context address) ;;
  call_db (db.fixed_ip_instance_disassociate context address) ;;
  mret VNone.

Definition _on_set_network_host (context : context) (network_id : Z)
  : prog value :=
  mret VNone.

Definition setup_compute_network (network : network_ref) : prog value :=
  Raise NotImplementedError.

Definition allocate_floating_ip (FLAGS : flags.t) (project_id : string)
    (context : context) : prog value :=
  address ← call_db (db.floating_ip_allocate_address context
                       (flags.node_name FLAGS) project_id);
  mret (VStr address).

Definition associate_floating_ip (floating_address fixed_address : string)
    (context : context) : prog value :=
  call_db (db.floating_ip_fixed_ip_associate context floating_address
             fixed_address) ;;
  call_driver (_driver.bind_floating_ip floating_address) ;;
  call_driver (_driver.ensure_floating_forward floating_address
                 fixed_address) ;;
  mret VNone.

Definition disassociate_floating_ip (floating_address : string)
    (context : context) : prog value :=
  fixed_address ← call_db (db.floating_ip_disassociate context
                             floating_address);
  call_driver (_driver.unbind_floating_ip floating_address) ;;
  call_driver (_driver.remove_floating_forward floating_address
                 fixed_address) ;;
  mret VNone.

Definition deallocate_floating_ip (floating_address : string)
    (context : context) : prog value :=
  call_db (db.floating_ip_deallocate context floating_address) ;;
  mret VNone.
End Base.

(** *** class FlatNetworkService(BaseNetworkService) *)
Module Flat.
Definition setup_compute_network (network : network_ref) : prog value :=
  mret VNone.

Definition _on_set_network_host (FLAGS : flags.t) (context : context)
    (network_id : Z) : prog value :=
  let net : gmap string value := ∅ in
  let net := <["injected" := VBool true]> net in
  let net := <["kind" := VStr (flags.network_type FLAGS)]> net in
  let net := <["network_str" := VStr (flags.flat_network_network FLAGS)]> net in
  let net := <["netmask" := VStr (flags.flat_network_netmask FLAGS)]> net in
  let net := <["bridge" := VStr (flags.flat_network_bridge FLAGS)]> net in
  let net := <["gateway" := VStr (flags.flat_network_gateway FLAGS)]> net in
  let net := <["broadcast" := VStr (flags.flat_network_broadcast FLAGS)]> net in
  let net := <["dns" := VStr (flags.flat_network_dns FLAGS)]> net in
  call_db (db.network_update context network_id net) ;;
  mret VNone.
End Flat.

(** *** class VlanNetworkService(BaseNetworkService) *)
Module Vlan.
Definition __init__ (FLAGS : flags.t) : prog value :=
  call_db (db.network_ensure_indexes None (flags.num_networks FLAGS)) ;;
  mret VNone.

Definition setup_fixed_ip (project_id instance_id : string)
    (context : context) : prog value :=
  network_ref ← call_db (db.project_get_network context project_id);
  is_vpn ← call_db (db.instance_is_vpn context instance_id);
  if is_vpn : bool then
    address ← call_db (db.network_get_vpn_ip_address context
                         (net_id network_ref));
    logging DEBUG ("Allocating vpn IP " +:+ address) ;;
    call_db (db.fixed_ip_instance_associate context address instance_id) ;;
    call_driver (_driver.ensure_vlan_forward
                   (net_vpn_public_ip_str network_ref)
                   (net_vpn_public_port network_ref)
                   (net_vpn_private_ip_str network_ref)) ;;
    mret (VStr address)
  else
    address ← Base.allocate_fixed_ip project_id instance_id context;
    mret address.

Definition lease_fixed_ip (address : string) (context : context)
  : prog value :=
  logging DEBUG ("Leasing IP " +:+ address) ;;
  call_db (db.fixed_ip_lease context address) ;;
  mret VNone.

Definition release_fixed_ip (address : string) (context : context)
  : prog value :=
  logging DEBUG ("Releasing IP " +:+ address) ;;
  call_db (db.fixed_ip_release context address) ;;
  call_db (db.fixed_ip_instance_disassociate context address) ;;
  mret VNone.

Definition deallocate_fixed_ip (address : string) (context : context)
  : prog value :=
  fixed_ip_ref ← call_db (db.fixed_ip_get_by_address context address);
  if fip_leased fixed_ip_ref then
    logging DEBUG ("Deallocating IP " +:+ address) ;;
    call_db (db.fixed_ip_deallocate context address) ;;
    mret VNone
  else
    release_fixed_ip address context ;;
    mret VNone.

Definition restart_nets : prog value := mret VNone.

Definition _on_set_network_host (context : context) (network_id : Z)
  : prog value :=
  network_ref ← call_db (db.network_get network_id);
  call_driver (_driver.ensure_vlan_bridge (net_vlan network_ref)
                 (net_bridge network_ref)) ;;
  mret VNone.

Definition setup_compute_network (network : network_ref) : prog value :=
  call_driver (_driver.ensure_vlan_bridge (net_vlan network)
                 (net_bridge network)) ;;
  mret VNone.
End Vlan.

(** *** Method resolution

    What a call of a method on an instance (or, for the class method, on a
    class) of [self] runs: the definition of the class itself where it has
    one, and the inherited one otherwise. *)
Module Service.
Definition _on_set_network_host (FLAGS : flags.t) (self : service_class)
  : context -> Z -> prog value :=
  match self with
  | BaseNetworkService => Base._on_set_network_host
  | FlatNetworkService => Flat._on_set_network_host FLAGS
  | VlanNetworkService => Vlan._on_set_network_host
  end.

Definition set_network_host (FLAGS : flags.t) (self : service_class)
  : string -> context -> prog value :=
  Base.set_network_host FLAGS (_on_set_network_host FLAGS self).

Definition deallocate_fixed_ip (self : service_class)
  : string -> context -> prog value :=
  match self with
  | VlanNetworkService => Vlan.deallocate_fixed_ip
  | _ => Base.deallocate_fixed_ip
  end.

Definition setup_compute_network (cls : service_class)
  : network_ref -> prog value :=
  match cls with
  | BaseNetworkService => Base.setup_compute_network
  | FlatNetworkService => Flat.setup_compute_network
  | VlanNetworkService => Vlan.setup_compute_network
  end.
End Service.

Definition setup_compute_network (FLAGS : flags.t) (project_id : string)
  : prog value :=
  network ← call_db (db.project_get_network None project_id);
  srv ← type_to_class FLAGS (net_kind network);
  Service.setup_compute_network srv network ;;
  mret VNone.

(** ** The address ledger

    [nova.db] is not part of the module.  The ledger below states what its
    specification says of each call; the theorems on what the ledger hands
    out, and the concrete runs, are stated over it.  Everything else is
    proved for arbitrary collaborators. *)
Module Ledger.
(** Modelled from the spec: the floating-ip rows of [nova.db], not in the
    module: owning host, owning tenant, bound fixed address. *)
Record floating_ip : Type := FloatingIp {
  flo_host : string;
  flo_project_id : option string;
  flo_fixed_ip : option string
}.

(** Modelled from the spec: the tables of [nova.db], not in the module:
    networks by identifier, the network of each project, fixed-ip and
    floating-ip rows by address, the instances that are VPN endpoints, and
    the number of networks whose index structures exist. *)
Record t : Type := Make {
  networks : gmap Z network_ref;
  projects : gmap string Z;
  fixed_ips : gmap string fixed_ip_ref;
  floating_ips : gmap string floating_ip;
  vpn_instances : gset string;
  indexes : Z
}.

(** Modelled from the spec: writes to one table or one column of
    [nova.db], not in the module; everything else is kept. *)
Definition with_networks (l : t) (m : gmap Z network_ref) : t :=
  Make m (projects l) (fixed_ips l) (floating_ips l) (vpn_instances l)
    (indexes l).
Definition with_fixed_ips (l : t) (m : gmap string fixed_ip_ref) : t :=
  Make (networks l) (projects l) m (floating_ips l) (vpn_instances l)
    (indexes l).
Definition with_floating_ips (l : t) (m : gmap string floating_ip) : t :=
  Make (networks l) (projects l) (fixed_ips l) m (vpn_instances l)
    (indexes l).
Definition with_indexes (l : t) (n : Z) : t :=
  Make (networks l) (projects l) (fixed_ips l) (floating_ips l)
    (vpn_instances l) n.

Definition set_allocated (b : bool) (ip : fixed_ip_ref) : fixed_ip_ref :=
  FixedIp (fip_network_id ip) (fip_instance_id ip) b (fip_leased ip).
Definition set_leased (b : bool) (ip : fixed_ip_ref) : fixed_ip_ref :=
  FixedIp (fip_network_id ip) (fip_instance_id ip) (fip_allocated ip) b.
Definition set_instance (i : option string) (ip : fixed_ip_ref)
  : fixed_ip_ref :=
  FixedIp (fip_network_id ip) i (fip_allocated ip) (fip_leased ip).

Definition set_node_name (h : option string) (n : network_ref)
  : network_ref :=
  Network (net_id n) (net_kind n) h (net_injected n) (net_network_str n)
    (net_netmask n) (net_bridge n) (net_gateway n) (net_broadcast n)
    (net_dns n) (net_vlan n) (net_vpn_public_ip_str n)
    (net_vpn_public_port n) (net_vpn_private_ip_str n).

Definition str_field (fields : gmap string value) (key : string)
    (old : string) : string :=
  match fields !! key with
  | Some (VStr s) => s
  | _ => old
  end.

(** Modelled from the spec: the row update of [db.network_update], not in
    the module ([UpdateNetwork(fields)]): the fields present overwrite the
    row's. *)
Definition update_fields (fields : gmap string value) (n : network_ref)
  : network_ref :=
  Network (net_id n)
    (match fields !! "kind" with
     | Some (VStr s) => Some s
     | Some VNone => None
     | _ => net_kind n
     end)
    (net_node_name n)
    (match fields !! "injected" with
     | Some (VBool b) => b
     | _ => net_injected n
     end)
    (str_field fields "network_str" (net_network_str n))
    (str_field fields "netmask" (net_netmask n))
    (str_field fields "bridge" (net_bridge n))
    (str_field fields "gateway" (net_gateway n))
    (str_field fields "broadcast" (net_broadcast n))
    (str_field fields "dns" (net_dns n))
    (net_vlan n) (net_vpn_public_ip_str n) (net_vpn_public_port n)
    (net_vpn_private_ip_str n).

(** Modelled from the spec: the lookup of [db.project_get_network], not in
    the module ([GetNetworkByTenant]). *)
Definition project_network (l : t) (project_id : string)
  : option network_ref :=
  nid ← projects l !! project_id; networks l !! nid.

(** Modelled from the spec: the addresses of network [nid] that
    [db.fixed_ip_allocate_address], not in the module, may hand out: the
    unallocated state of the life cycle, neither allocated nor under a
    lease. *)
Definition available (nid : Z) (ip : fixed_ip_ref) : bool :=
  Z.eqb (fip_network_id ip) nid
  && negb (fip_allocated ip) && negb (fip_leased ip).

(** Modelled from the spec: the pool of free addresses of a network kept by
    [nova.db], not in the module. *)
Definition free_pool (l : t) (nid : Z) : gmap string fixed_ip_ref :=
  filter (fun kv => available nid kv.2 = true) (fixed_ips l).

(** Modelled from the spec: the floating addresses that
    [db.floating_ip_allocate_address], not in the module, may hand out: those
    of [host] that no tenant holds. *)
Definition unreserved (host : string) (f : floating_ip) : bool :=
  String.eqb (flo_host f) host
  && match flo_project_id f with None => true | Some _ => false end.

(** Modelled from the spec: the calls of [nova.db], not in the module, that
    change one fixed-ip row; the row must exist. *)
Definition alter_fixed_ip (f : fixed_ip_ref -> fixed_ip_ref) (l : t)
    (address : string) : result unit * t :=
  match fixed_ips l !! address with
  | Some ip => (Ok tt, with_fixed_ips l (<[address := f ip]> (fixed_ips l)))
  | None => (Err (NotFound address), l)
  end.

(** Modelled from the spec: [db.fixed_ip_allocate_address], not in the
    module ([AllocateFixedIPAddress(networkID) -> address | ExhaustedError]):
    the next available address of the network's pool, marked allocated;
    [AddressSpaceExhausted] when none remains. *)
Definition fixed_ip_allocate_address (l : t) (nid : Z)
  : result string * t :=
  match map_to_list (free_pool l nid) with
  | (address, ip) :: _ =>
      (Ok address,
       with_fixed_ips l (<[address := set_allocated true ip]> (fixed_ips l)))
  | [] => (Err AddressSpaceExhausted, l)
  end.

(** Modelled from the spec: [db.floating_ip_allocate_address], not in the
    module ([AllocateFloatingIPAddress(host, tenant) -> address |
    ExhaustedError]): an unused public address of the host's pool, reserved
    for the tenant. *)
Definition floating_ip_allocate_address (l : t) (host project_id : string)
  : result string * t :=
  match map_to_list
          (filter (fun kv => unreserved host kv.2 = true) (floating_ips l))
  with
  | (address, f) :: _ =>
      (Ok address,
       with_floating_ips l
         (<[address := FloatingIp (flo_host f) (Some project_id)
                         (flo_fixed_ip f)]> (floating_ips l)))
  | [] => (Err AddressSpaceExhausted, l)
  end.

(** Modelled from the spec: [db.floating_ip_disassociate], not in the
    module ([DisassociateFloating -> previousFixedAddress |
    NotAllocatedError]): reads and clears the association. *)
Definition floating_ip_disassociate (l : t) (floating : string)
  : result string * t :=
  match floating_ips l !! floating with
  | Some f =>
      match flo_fixed_ip f with
      | Some fixed =>
          (Ok fixed,
           with_floating_ips l
             (<[floating := FloatingIp (flo_host f) (flo_project_id f)
                              None]> (floating_ips l)))
      | None => (Err AddressNotAllocated, l)
      end
  | None => (Err AddressNotAllocated, l)
  end.

(** Modelled from the spec: [db.floating_ip_deallocate], not in the module
    ([DeallocateFloatingIPAddress], for which the ledger's contract names no
    error): releases the address back to the pool, whether or not a tenant
    held it.  Disassociation must precede deallocation, so a row still bound
    to a fixed address is refused; like the other calls on one row, the call
    fails with [NotFound] on a missing row. *)
Definition floating_ip_deallocate (l : t) (floating : string)
  : result unit * t :=
  match floating_ips l !! floating with
  | Some f =>
      match flo_fixed_ip f with
      | Some _ => (Err (OtherError "floating ip is still associated"), l)
      | None =>
          (Ok tt,
           with_floating_ips l
             (<[floating := FloatingIp (flo_host f) None None]>
                (floating_ips l)))
      end
  | None => (Err (NotFound floating), l)
  end.

(** Modelled from the spec: a read of [nova.db], not in the module, fails
    with [NotFound] on a missing row. *)
Definition found {A : Type} (what : string) (o : option A) : result A :=
  match o with
  | Some a => Ok a
  | None => Err (NotFound what)
  end.

(** Modelled from the spec: the functions of [nova.db] that the module
    calls, none of them in the module, as the datastore of [run].  Reads
    fail with [NotFound] on a missing row.  [SetNetworkHost] is atomic and
    returns the previous or the assigned host; [SetFixedIPLeased] and
    [ClearLeased] set and clear the leased flag; the associate and
    disassociate calls set and clear the instance of a fixed-ip row;
    [DeallocateFixedIPAddress] clears the allocated flag;
    [EnsureNetworkIndexes] is idempotent. *)
Definition handle (c : db.call) : t -> result (db.ret c) * t :=
  match c as c return t -> result (db.ret c) * t with
  | db.project_get_network _ project_id => fun l =>
      (found project_id (project_network l project_id), l)
  | db.network_get network_id => fun l =>
      (found "network" (networks l !! network_id), l)
  | db.network_set_host _ network_id host => fun l =>
      match networks l !! network_id with
      | Some n =>
          match net_node_name n with
          | Some previous => (Ok previous, l)
          | None =>
              (Ok host,
               with_networks l
                 (<[network_id := set_node_name (Some host) n]> (networks l)))
          end
      | None => (Err (NotFound "network"), l)
      end
  | db.network_update _ network_id net => fun l =>
      match networks l !! network_id with
      | Some n =>
          (Ok tt,
           with_networks l
             (<[network_id := update_fields net n]> (networks l)))
      | None => (Err (NotFound "network"), l)
      end
  | db.network_ensure_indexes _ n => fun l =>
      (Ok tt, with_indexes l (Z.max (indexes l) n))
  | db.network_get_vpn_ip_address _ network_id => fun l =>
      (found "network"
         (net_vpn_private_ip_str <$> networks l !! network_id), l)
  | db.instance_is_vpn _ instance_id => fun l =>
      (Ok (bool_decide (instance_id ∈ vpn_instances l)), l)
  | db.fixed_ip_allocate_address _ network_id => fun l =>
      fixed_ip_allocate_address l network_id
  | db.fixed_ip_instance_associate _ address instance_id => fun l =>
      alter_fixed_ip (set_instance (Some instance_id)) l address
  | db.fixed_ip_instance_disassociate _ address => fun l =>
      alter_fixed_ip (set_instance None) l address
  | db.fixed_ip_deallocate _ address => fun l =>
      alter_fixed_ip (set_allocated false) l address
  | db.fixed_ip_get_by_address _ address => fun l =>
      (found address (fixed_ips l !! address), l)
  | db.fixed_ip_lease _ address => fun l =>
      alter_fixed_ip (set_leased true) l address
  | db.fixed_ip_release _ address => fun l =>
      alter_fixed_ip (set_leased false) l address
  | db.floating_ip_allocate_address _ host project_id => fun l =>
      floating_ip_allocate_address l host project_id
  | db.floating_ip_fixed_ip_associate _ floating fixed => fun l =>
      match floating_ips l !! floating with
      | Some f =>
          (Ok tt,
           with_floating_ips l
             (<[floating := FloatingIp (flo_host f) (flo_project_id f)
                              (Some fixed)]> (floating_ips l)))
      | None => (Err (NotFound floating), l)
      end
  | db.floating_ip_disassociate _ floating => fun l =>
      floating_ip_disassociate l floating
  | db.floating_ip_deallocate _ floating => fun l =>
      floating_ip_deallocate l floating
  end.
End Ledger.

(** A driver that carries out every command and keeps the list of the
    commands it was given, latest first. *)
Definition obedient (c : _driver.call) (d : list _driver.call)
  : result unit * list _driver.call :=
  (Ok tt, c :: d).

(** A driver that refuses the commands [refused] picks and carries out the
    others. *)
Definition refusing (refused : _driver.call -> bool) (c : _driver.call)
    (d : list _driver.call) : result unit * list _driver.call :=
  if refused c then (Err (OtherError "driver"), d) else (Ok tt, c :: d).

(** ** Derived notions used by the statements *)

(** The identifier [type_to_class] dispatches on: the argument when it is
    true in Python's sense, the configured default otherwise. *)
Definition effective_type (FLAGS : flags.t) (network_type : option string)
  : string :=
  if truthy network_type then default "" network_type
  else flags.network_type FLAGS.

(** The dictionary the flat hook hands to [db.network_update]. *)
Definition flat_net (FLAGS : flags.t) : gmap string value :=
  <["dns" := VStr (flags.flat_network_dns FLAGS)]>
    (<["broadcast" := VStr (flags.flat_network_broadcast FLAGS)]>
      (<["gateway" := VStr (flags.flat_network_gateway FLAGS)]>
        (<["bridge" := VStr (flags.flat_network_bridge FLAGS)]>
          (<["netmask" := VStr (flags.flat_network_netmask FLAGS)]>
            (<["network_str" := VStr (flags.flat_network_network FLAGS)]>
              (<["kind" := VStr (flags.network_type FLAGS)]>
                (<["injected" := VBool true]> ∅))))))).


(** Requests served one after the other, each from the state the one
    before left: the results in order, and the final state. *)
Fixpoint run_all {L D A : Type}
    (on_db : forall c : db.call, L -> result (db.ret c) * L)
    (on_driver : _driver.call -> D -> result unit * D)
    (requests : list (prog A)) (l : L) (d : D)
  : list (result A) * (L * D) :=
  match requests with
  | [] => ([], (l, d))
  | p :: requests =>
      let o := run on_db on_driver p l d in
      let rest := run_all on_db on_driver requests (ledger o) (driver o) in
      (res o :: rest.1, rest.2)
  end.

(** What the ledger holds for an address handed to an instance: the row
    is allocated and bound to that instance. *)
Definition bound_to (l : Ledger.t) (address instance_id : string) : Prop :=
  exists ip,
    Ledger.fixed_ips l !! address = Some ip
    /\ fip_instance_id ip = Some instance_id
    /\ fip_allocated ip = true.

(** ** A small deployment

    Host [host1] serves two tenants: [tenantA] on a flat network whose row
    is still blank, [tenantB] on VLAN 105 with a VPN endpoint.  The
    concrete runs below start from it. *)
Module Deployment.
Definition FLAGS : flags.t := flags.defaults "host1".

(** The same host configured with [--network_type=vlan]. *)
Definition vlan_FLAGS : flags.t :=
  flags.Flags "host1" "vlan" "br100" "192.168.0.0" "255.255.255.0"
    "192.168.0.1" "192.168.0.255" "8.8.4.4" 1000.

Definition netA : network_ref :=
  Network 1 (Some "flat") None false "" "" "" "" "" "" 0 "" 0 "".

Definition netB : network_ref :=
  Network 2 (Some "vlan") None false "10.0.0.0" "255.255.255.0" "br105"
    "10.0.0.1" "10.0.0.255" "8.8.4.4" 105 "4.4.4.4" 1001 "10.0.0.2".

Definition ledger : Ledger.t :=
  Ledger.Make
    (<[1 := netA]> (<[2 := netB]> ∅))
    (<["tenantA" := 1]> (<["tenantB" := 2]> ∅))
    (<["10.0.0.2" := FixedIp 2 None true false]>
       (<["10.0.0.3" := FixedIp 2 None false false]>
          (<["10.0.0.4" := FixedIp 2 None false false]>
             (<["10.0.0.5" := FixedIp 2 (Some "i-5") true true]>
                (<["10.0.0.6" := FixedIp 2 (Some "i-6") true false]> ∅)))))
    (<["4.4.4.10" := Ledger.FloatingIp "host1" (Some "tenantB")
                       (Some "10.0.0.5")]>
       (<["4.4.4.11" := Ledger.FloatingIp "host1" None None]> ∅))
    {[ "vpn-instance-1" ]}
    0.

(** A driver that refuses to bind or unbind floating addresses and to
    create bridges. *)
Definition stubborn : _driver.call -> bool :=
  fun c =>
    match c with
    | _driver.bind_floating_ip _ | _driver.unbind_floating_ip _
    | _driver.ensure_vlan_bridge _ _ => true
    | _ => false
    end.
End Deployment.

(** ** Notions for the module as a whole *)

(** The driver commands of a call record, in the order they were given. *)
Fixpoint commands (tr : list event) : list _driver.call :=
  match tr with
  | [] => []
  | EDriver c :: tr => c :: commands tr
  | _ :: tr => commands tr
  end.

(** The datastore calls of a call record, in the order they were made. *)
Fixpoint queries (tr : list event) : list db.call :=
  match tr with
  | [] => []
  | EDb c :: tr => c :: queries tr
  | _ :: tr => queries tr
  end.

Definition is_command (ev : event) : bool :=
  match ev with
  | EDriver _ => true
  | _ => false
  end.

(** A call record in which nothing but driver commands follows the first
    driver command. *)
Fixpoint ledger_first (tr : list event) : bool :=
  match tr with
  | [] => true
  | EDriver _ :: tr => forallb is_command tr
  | _ :: tr => ledger_first tr
  end.

(** The calls the module answers: the two module-level functions, and every
    method of the three classes on every receiver that has it. *)
Inductive operation (FLAGS : flags.t) : prog value -> Prop :=
| op_setup_compute_network project_id :
    operation FLAGS (setup_compute_network FLAGS project_id)
| op_get_host_for_project project_id :
    operation FLAGS (get_host_for_project project_id)
| op_set_network_host self project_id ctx :
    operation FLAGS (Service.set_network_host FLAGS self project_id ctx)
| op_allocate_fixed_ip project_id instance_id ctx :
    operation FLAGS (Base.allocate_fixed_ip project_id instance_id ctx)
| op_deallocate_fixed_ip self address ctx :
    operation FLAGS (Service.deallocate_fixed_ip self address ctx)
| op_on_set_network_host self ctx network_id :
    operation FLAGS (Service._on_set_network_host FLAGS self ctx network_id)
| op_class_setup_compute_network cls network :
    operation FLAGS (Service.setup_compute_network cls network)
| op_allocate_floating_ip project_id ctx :
    operation FLAGS (Base.allocate_floating_ip FLAGS project_id ctx)
| op_associate_floating_ip floating fixed ctx :
    operation FLAGS (Base.associate_floating_ip floating fixed ctx)
| op_disassociate_floating_ip floating ctx :
    operation FLAGS (Base.disassociate_floating_ip floating ctx)
| op_deallocate_floating_ip floating ctx :
    operation FLAGS (Base.deallocate_floating_ip floating ctx)
| op_init :
    operation FLAGS (Vlan.__init__ FLAGS)
| op_setup_fixed_ip project_id instance_id ctx :
    operation FLAGS (Vlan.setup_fixed_ip project_id instance_id ctx)
| op_lease_fixed_ip address ctx :
    operation FLAGS (Vlan.lease_fixed_ip address ctx)
| op_release_fixed_ip address ctx :
    operation FLAGS (Vlan.release_fixed_ip address ctx)
| op_restart_nets :
    operation FLAGS Vlan.restart_nets.

(** ** Collaborators that fail *)

(** The ledger behind a connection that drops the calls [dropped] picks:
    those raise and leave the ledger alone, the others go through. *)
Definition unreliable (dropped : db.call -> bool) (c : db.call)
    (l : Ledger.t) : result (db.ret c) * Ledger.t :=
  if dropped c then (Err (OtherError "db"), l) else Ledger.handle c l.

Module Faults.
(** The instance association is the call that is dropped. *)
Definition no_associate : db.call -> bool :=
  fun c =>
    match c with
    | db.fixed_ip_instance_associate _ _ _ => true
    | _ => false
    end.

(** The lease release is the call that is dropped. *)
Definition no_release : db.call -> bool :=
  fun c =>
    match c with
    | db.fixed_ip_release _ _ => true
    | _ => false
    end.

(** The deallocation is the call that is dropped. *)
Definition no_deallocate : db.call -> bool :=
  fun c =>
    match c with
    | db.fixed_ip_deallocate _ _ => true
    | _ => false
    end.

(** A driver that refuses VPN forwarding. *)
Definition no_vlan_forward : _driver.call -> bool :=
  fun c =>
    match c with
    | _driver.ensure_vlan_forward _ _ _ => true
    | _ => false
    end.

(** The deployment after [host2] became the host of the network of
    [tenantB]. *)
Definition taken : Ledger.t :=
  Ledger.with_networks Deployment.ledger
    (<[2 := Ledger.set_node_name (Some "host2") Deployment.netB]>
       (Ledger.networks Deployment.ledger)).
End Faults.

(** The context argument of a datastore call; [db.network_get] is called
    with the network identifier alone. *)
Definition call_context (c : db.call) : option context :=
  match c with
  | db.network_get _ => None
  | db.project_get_network ctx _ | db.network_set_host ctx _ _
  | db.network_update ctx _ _ | db.network_ensure_indexes ctx _
  | db.network_get_vpn_ip_address ctx _ | db.instance_is_vpn ctx _
  | db.fixed_ip_allocate_address ctx _
  | db.fixed_ip_instance_associate ctx _ _
  | db.fixed_ip_instance_disassociate ctx _ | db.fixed_ip_deallocate ctx _
  | db.fixed_ip_get_by_address ctx _ | db.fixed_ip_lease ctx _
  | db.fixed_ip_release ctx _ | db.floating_ip_allocate_address ctx _ _
  | db.floating_ip_fixed_ip_associate ctx _ _
  | db.floating_ip_disassociate ctx _ | db.floating_ip_deallocate ctx _ =>
      Some ctx
  end.

(** Whether a method found on [self] is that of the VLAN class. *)
Definition is_vlan (self : service_class) : bool :=
  match self with
  | VlanNetworkService => true
  | _ => false
  end.

(** The methods that take a [context] argument, called with [ctx].  The
    flag tells whether the call goes through the host-assignment hook of the
    VLAN class. *)
Inductive method (FLAGS : flags.t) (ctx : context)
  : bool -> prog value -> Prop :=
| m_set_network_host self project_id :
    method FLAGS ctx (is_vlan self)
      (Service.set_network_host FLAGS self project_id ctx)
| m_on_set_network_host self network_id :
    method FLAGS ctx (is_vlan self)
      (Service._on_set_network_host FLAGS self ctx network_id)
| m_allocate_fixed_ip project_id instance_id :
    method FLAGS ctx false
      (Base.allocate_fixed_ip project_id instance_id ctx)
| m_deallocate_fixed_ip self address :
    method FLAGS ctx false (Service.deallocate_fixed_ip self address ctx)
| m_allocate_floating_ip project_id :
    method FLAGS ctx false (Base.allocate_floating_ip FLAGS project_id ctx)
| m_associate_floating_ip floating fixed :
    method FLAGS ctx false (Base.associate_floating_ip floating fixed ctx)
| m_disassociate_floating_ip floating :
    method FLAGS ctx false (Base.disassociate_floating_ip floating ctx)
| m_deallocate_floating_ip floating :
    method FLAGS ctx false (Base.deallocate_floating_ip floating ctx)
| m_setup_fixed_ip project_id instance_id :
    method FLAGS ctx false
      (Vlan.setup_fixed_ip project_id instance_id ctx)
| m_lease_fixed_ip address :
    method FLAGS ctx false (Vlan.lease_fixed_ip address ctx)
| m_release_fixed_ip address :
    method FLAGS ctx false (Vlan.release_fixed_ip address ctx).

(** The calls that have no driver command in their text: everything but
    the VLAN provisioning, the VPN path of [setup_fixed_ip] and the
    association of floating addresses. *)
Inductive ledger_only (FLAGS : flags.t) : prog value -> Prop :=
| lo_get_host_for_project project_id :
    ledger_only FLAGS (get_host_for_project project_id)
| lo_set_network_host self project_id ctx :
    self <> VlanNetworkService ->
    ledger_only FLAGS (Service.set_network_host FLAGS self project_id ctx)
| lo_on_set_network_host self ctx network_id :
    self <> VlanNetworkService ->
    ledger_only FLAGS
      (Service._on_set_network_host FLAGS self ctx network_id)
| lo_flat_setup_compute_network network :
    ledger_only FLAGS
      (Service.setup_compute_network FlatNetworkService network)
| lo_allocate_fixed_ip project_id instance_id ctx :
    ledger_only FLAGS (Base.allocate_fixed_ip project_id instance_id ctx)
| lo_deallocate_fixed_ip self address ctx :
    ledger_only FLAGS (Service.deallocate_fixed_ip self address ctx)
| lo_allocate_floating_ip project_id ctx :
    ledger_only FLAGS (Base.allocate_floating_ip FLAGS project_id ctx)
| lo_deallocate_floating_ip floating ctx :
    ledger_only FLAGS (Base.deallocate_floating_ip floating ctx)
| lo_init :
    ledger_only FLAGS (Vlan.__init__ FLAGS)
| lo_lease_fixed_ip address ctx :
    ledger_only FLAGS (Vlan.lease_fixed_ip address ctx)
| lo_release_fixed_ip address ctx :
    ledger_only FLAGS (Vlan.release_fixed_ip address ctx)
| lo_restart_nets :
    ledger_only FLAGS Vlan.restart_nets.
(** ** Laws of [run] *)

Section RunFacts.
Context {L D : Type}.
Variable on_db : forall c : db.call, L -> result (db.ret c) * L.
Variable on_driver : _driver.call -> D -> result unit * D.

Local Abbreviation run := (run on_db on_driver).

(** Running [p ≫= f] runs [p], and runs [f] on its value from the state
    [p] left; when [p] raises, [f] is not run. *)
Lemma run_bind {A B : Type} (p : prog A) (f : A -> prog B) l d :
  run (p ≫= f) l d =
    match res (run p l d) with
    | Ok a =>
        let o := run p l d in
        let o' := run (f a) (ledger o) (driver o) in
        Outcome (res o') (ledger o') (driver o') (trace o ++ trace o')
    | Err e =>
        let o := run p l d in
        Outcome (Err e) (ledger o) (driver o) (trace o)
    end.
Proof.
  unfold mbind, prog_bind.
  revert l d; induction p as [a|e|c k IH|c k IH|lvl msg k IH]; intros l d;
    simpl.
  - by destruct (run (f a) l d).
  - done.
  - destruct (on_db c l) as [[x|e] l']; simpl; [|done].
    rewrite IH. by destruct (res (run (k x) l' d)).
  - destruct (on_driver c d) as [[x|e] d']; simpl; [|done].
    rewrite IH. by destruct (res (run (k x) l d')).
  - rewrite IH. by destruct (res (run k l d)).
Qed.

Lemma run_all_cons {A : Type} (p : prog A) (requests : list (prog A)) l d :
  run_all on_db on_driver (p :: requests) l d =
    (res (run p l d)
       :: (run_all on_db on_driver requests (ledger (run p l d))
             (driver (run p l d))).1,
     (run_all on_db on_driver requests (ledger (run p l d))
        (driver (run p l d))).2).
Proof. done. Qed.

End RunFacts.

(** ** The registry and the flat hook, against any collaborators *)

Section AnyCollaborators.
Context {L D : Type}.
Variable on_db : forall c : db.call, L -> result (db.ret c) * L.
Variable on_driver : _driver.call -> D -> result unit * D.

Local Abbreviation run := (run on_db on_driver).

Lemma type_to_class_res FLAGS nt l d :
  res (run (type_to_class FLAGS nt) l d) =
    let chosen := effective_type FLAGS nt in
    if String.eqb chosen "flat" then Ok FlatNetworkService
    else if String.eqb chosen "vlan" then Ok VlanNetworkService
    else Err (NotFound ("Couldn't find " +:+ chosen +:+ " network type")).
Proof.
  unfold type_to_class, effective_type.
  destruct (truthy nt); simpl;
    repeat match goal with |- context [String.eqb ?a ?b] =>
             destruct (String.eqb a b) end; done.
Qed.

Lemma type_to_class_pure FLAGS nt l d :
  ledger (run (type_to_class FLAGS nt) l d) = l
  /\ driver (run (type_to_class FLAGS nt) l d) = d
  /\ trace (run (type_to_class FLAGS nt) l d) =
       if truthy nt then []
       else [ELog WARN ("Network type couldn't be determined, using "
                          +:+ flags.network_type FLAGS)].
Proof.
  unfold type_to_class.
  destruct (truthy nt); simpl;
    repeat match goal with |- context [String.eqb ?a ?b] =>
             destruct (String.eqb a b) end; done.
Qed.

Lemma flat_hook_run FLAGS self_ctx nid l d :
  run (Flat._on_set_network_host FLAGS self_ctx nid) l d =
    Outcome
      (match (on_db (db.network_update self_ctx nid (flat_net FLAGS)) l).1 with
       | Ok _ => Ok VNone
       | Err e => Err e
       end)
      (on_db (db.network_update self_ctx nid (flat_net FLAGS)) l).2
      d
      [EDb (db.network_update self_ctx nid (flat_net FLAGS))].
Proof.
  unfold Flat._on_set_network_host, flat_net. simpl.
  by destruct (on_db _ l) as [[[]|e] l'].
Qed.

Lemma flat_net_fields FLAGS :
  flat_net FLAGS !! "injected" = Some (VBool true)
  /\ flat_net FLAGS !! "kind" = Some (VStr (flags.network_type FLAGS))
  /\ flat_net FLAGS !! "bridge" = Some (VStr (flags.flat_network_bridge FLAGS))
  /\ flat_net FLAGS !! "network_str"
     = Some (VStr (flags.flat_network_network FLAGS))
  /\ flat_net FLAGS !! "netmask"
     = Some (VStr (flags.flat_network_netmask FLAGS))
  /\ flat_net FLAGS !! "gateway"
     = Some (VStr (flags.flat_network_gateway FLAGS))
  /\ flat_net FLAGS !! "broadcast"
     = Some (VStr (flags.flat_network_broadcast FLAGS))
  /\ flat_net FLAGS !! "dns" = Some (VStr (flags.flat_network_dns FLAGS)).
Proof. unfold flat_net. repeat split; by vm_compute. Qed.

(** *** Floating addresses *)

Lemma associate_floating_ip_run floating fixed ctx l d :
  let write := db.floating_ip_fixed_ip_associate ctx floating fixed in
  let bind_cmd := _driver.bind_floating_ip floating in
  let forward := _driver.ensure_floating_forward floating fixed in
  run (Base.associate_floating_ip floating fixed ctx) l d =
    match on_db write l with
    | (Err e, l1) => Outcome (Err e) l1 d [EDb write]
    | (Ok _, l1) =>
        match on_driver bind_cmd d with
        | (Err e, d1) => Outcome (Err e) l1 d1 [EDb write; EDriver bind_cmd]
        | (Ok _, d1) =>
            match on_driver forward d1 with
            | (Err e, d2) =>
                Outcome (Err e) l1 d2
                  [EDb write; EDriver bind_cmd; EDriver forward]
            | (Ok _, d2) =>
                Outcome (Ok VNone) l1 d2
                  [EDb write; EDriver bind_cmd; EDriver forward]
            end
        end
    end.
Proof.
  unfold Base.associate_floating_ip; simpl.
  destruct (on_db _ l) as [[[]|e] l1]; simpl; [|done].
  destruct (on_driver _ d) as [[[]|e] d1]; simpl; [|done].
  by destruct (on_driver _ d1) as [[[]|e] d2].
Qed.

Lemma disassociate_floating_ip_run floating ctx l d :
  let clear := db.floating_ip_disassociate ctx floating in
  let unbind := _driver.unbind_floating_ip floating in
  run (Base.disassociate_floating_ip floating ctx) l d =
    match on_db clear l with
    | (Err e, l1) => Outcome (Err e) l1 d [EDb clear]
    | (Ok fixed, l1) =>
        let remove := _driver.remove_floating_forward floating fixed in
        match on_driver unbind d with
        | (Err e, d1) => Outcome (Err e) l1 d1 [EDb clear; EDriver unbind]
        | (Ok _, d1) =>
            match on_driver remove d1 with
            | (Err e, d2) =>
                Outcome (Err e) l1 d2
                  [EDb clear; EDriver unbind; EDriver remove]
            | (Ok _, d2) =>
                Outcome (Ok VNone) l1 d2
                  [EDb clear; EDriver unbind; EDriver remove]
            end
        end
    end.
Proof.
  unfold Base.disassociate_floating_ip; simpl.
  destruct (on_db _ l) as [[fixed|e] l1]; simpl; [|done].
  destruct (on_driver _ d) as [[[]|e] d1]; simpl; [|done].
  by destruct (on_driver _ d1) as [[[]|e] d2].
Qed.


(** *** Host assignment *)

Lemma set_network_host_run FLAGS self project_id ctx l d :
  let get := db.project_get_network ctx project_id in
  run (Service.set_network_host FLAGS self project_id ctx) l d =
    match on_db get l with
    | (Err e, l0) => Outcome (Err e) l0 d [EDb get]
    | (Ok network_ref, l0) =>
        let network_id := net_id network_ref in
        let set := db.network_set_host ctx network_id (flags.node_name FLAGS) in
        match on_db set l0 with
        | (Err e, l1) => Outcome (Err e) l1 d [EDb get; EDb set]
        | (Ok host, l1) =>
            let hook :=
              run (Service._on_set_network_host FLAGS self ctx network_id)
                l1 d in
            Outcome
              (match res hook with Ok _ => Ok (VStr host) | Err e => Err e end)
              (ledger hook) (driver hook)
              (EDb get :: EDb set :: trace hook)
        end
    end.
Proof.
  unfold Service.set_network_host, Base.set_network_host; simpl.
  destruct (on_db _ l) as [[network_ref|e] l0]; simpl; [|done].
  destruct (on_db _ l0) as [[host|e] l1]; simpl; [|done].
  rewrite run_bind.
  destruct (res (run _ l1 d)); simpl; [|done].
  by rewrite app_nil_r.
Qed.

Lemma vlan_hook_run ctx network_id l d :
  let get := db.network_get network_id in
  run (Vlan._on_set_network_host ctx network_id) l d =
    match on_db get l with
    | (Err e, l1) => Outcome (Err e) l1 d [EDb get]
    | (Ok network_ref, l1) =>
        let ensure :=
          _driver.ensure_vlan_bridge (net_vlan network_ref)
            (net_bridge network_ref) in
        Outcome
          (match (on_driver ensure d).1 with
           | Ok _ => Ok VNone
           | Err e => Err e
           end)
          l1 (on_driver ensure d).2 [EDb get; EDriver ensure]
    end.
Proof.
  unfold Vlan._on_set_network_host; simpl.
  destruct (on_db _ l) as [[network_ref|e] l1]; simpl; [|done].
  by destruct (on_driver _ d) as [[[]|e] d1].
Qed.

(** No hook sets the host again: whatever a hook does after the update of
    [set_network_host], it is not a second [db.network_set_host]. *)
Lemma hook_never_sets_host FLAGS self ctx network_id l d ctx' nid' host :
  let hook := Service._on_set_network_host FLAGS self ctx network_id in
  EDb (db.network_set_host ctx' nid' host) ∉ trace (run hook l d).
Proof.
  destruct self; unfold Service._on_set_network_host.
  - apply not_elem_of_nil.
  - rewrite flat_hook_run; simpl. by intros [=]%list_elem_of_singleton.
  - rewrite vlan_hook_run; simpl.
    destruct (on_db _ l) as [[network_ref|e] l1]; simpl.
    + intros [[=]|[=]%list_elem_of_singleton]%elem_of_cons.
    + by intros [=]%list_elem_of_singleton.
Qed.

(** *** Fixed addresses *)

Lemma allocate_fixed_ip_run project_id instance_id ctx l d :
  let get := db.project_get_network ctx project_id in
  run (Base.allocate_fixed_ip project_id instance_id ctx) l d =
    match on_db get l with
    | (Err e, l0) => Outcome (Err e) l0 d [EDb get]
    | (Ok network_ref, l0) =>
        let alloc := db.fixed_ip_allocate_address ctx (net_id network_ref) in
        match on_db alloc l0 with
        | (Err e, l1) => Outcome (Err e) l1 d [EDb get; EDb alloc]
        | (Ok address, l1) =>
            let assoc :=
              db.fixed_ip_instance_associate ctx address instance_id in
            Outcome
              (match (on_db assoc l1).1 with
               | Ok _ => Ok (VStr address)
               | Err e => Err e
               end)
              (on_db assoc l1).2 d [EDb get; EDb alloc; EDb assoc]
        end
    end.
Proof.
  unfold Base.allocate_fixed_ip; simpl.
  destruct (on_db _ l) as [[network_ref|e] l0]; simpl; [|done].
  destruct (on_db _ l0) as [[address|e] l1]; simpl; [|done].
  by destruct (on_db _ l1) as [[[]|e] l2].
Qed.

Lemma release_fixed_ip_run address ctx l d :
  let clear := db.fixed_ip_release ctx address in
  let forget := db.fixed_ip_instance_disassociate ctx address in
  let line := ELog DEBUG ("Releasing IP " +:+ address) in
  run (Vlan.release_fixed_ip address ctx) l d =
    match on_db clear l with
    | (Err e, l1) => Outcome (Err e) l1 d [line; EDb clear]
    | (Ok _, l1) =>
        Outcome
          (match (on_db forget l1).1 with
           | Ok _ => Ok VNone
           | Err e => Err e
           end)
          (on_db forget l1).2 d [line; EDb clear; EDb forget]
    end.
Proof.
  unfold Vlan.release_fixed_ip; simpl.
  destruct (on_db _ l) as [[[]|e] l1]; simpl; [|done].
  by destruct (on_db _ l1) as [[[]|e] l2].
Qed.

Lemma vlan_deallocate_fixed_ip_run address ctx l d :
  let get := db.fixed_ip_get_by_address ctx address in
  let free := db.fixed_ip_deallocate ctx address in
  run (Vlan.deallocate_fixed_ip address ctx) l d =
    match on_db get l with
    | (Err e, l0) => Outcome (Err e) l0 d [EDb get]
    | (Ok fixed_ip_ref, l0) =>
        if fip_leased fixed_ip_ref then
          Outcome
            (match (on_db free l0).1 with
             | Ok _ => Ok VNone
             | Err e => Err e
             end)
            (on_db free l0).2 d
            [EDb get; ELog DEBUG ("Deallocating IP " +:+ address); EDb free]
        else
          let release := run (Vlan.release_fixed_ip address ctx) l0 d in
          Outcome (res release) (ledger release) (driver release)
            (EDb get :: trace release)
    end.
Proof.
  unfold Vlan.deallocate_fixed_ip; simpl.
  destruct (on_db _ l) as [[fixed_ip_ref|e] l0]; simpl; [|done].
  destruct (fip_leased fixed_ip_ref); simpl.
  - by destruct (on_db _ l0) as [[[]|e] l1].
  - unfold Vlan.release_fixed_ip; simpl.
    destruct (on_db _ l0) as [[[]|e] l1]; simpl; [|done].
    by destruct (on_db _ l1) as [[[]|e] l2].
Qed.

Lemma setup_fixed_ip_run project_id instance_id ctx l d :
  let get := db.project_get_network ctx project_id in
  let is_vpn := db.instance_is_vpn ctx instance_id in
  run (Vlan.setup_fixed_ip project_id instance_id ctx) l d =
    match on_db get l with
    | (Err e, l0) => Outcome (Err e) l0 d [EDb get]
    | (Ok network_ref, l0) =>
        match on_db is_vpn l0 with
        | (Err e, l1) => Outcome (Err e) l1 d [EDb get; EDb is_vpn]
        | (Ok true, l1) =>
            let vpn_ip :=
              db.network_get_vpn_ip_address ctx (net_id network_ref) in
            match on_db vpn_ip l1 with
            | (Err e, l2) =>
                Outcome (Err e) l2 d [EDb get; EDb is_vpn; EDb vpn_ip]
            | (Ok address, l2) =>
                let line := ELog DEBUG ("Allocating vpn IP " +:+ address) in
                let assoc :=
                  db.fixed_ip_instance_associate ctx address instance_id in
                let forward :=
                  _driver.ensure_vlan_forward
                    (net_vpn_public_ip_str network_ref)
                    (net_vpn_public_port network_ref)
                    (net_vpn_private_ip_str network_ref) in
                match on_db assoc l2 with
                | (Err e, l3) =>
                    Outcome (Err e) l3 d
                      [EDb get; EDb is_vpn; EDb vpn_ip; line; EDb assoc]
                | (Ok _, l3) =>
                    Outcome
                      (match (on_driver forward d).1 with
                       | Ok _ => Ok (VStr address)
                       | Err e => Err e
                       end)
                      l3 (on_driver forward d).2
                      [EDb get; EDb is_vpn; EDb vpn_ip; line; EDb assoc;
                       EDriver forward]
                end
            end
        | (Ok false, l1) =>
            let base :=
              run (Base.allocate_fixed_ip project_id instance_id ctx) l1 d in
            Outcome (res base) (ledger base) (driver base)
              (EDb get :: EDb is_vpn :: trace base)
        end
    end.
Proof.
  unfold Vlan.setup_fixed_ip; simpl.
  destruct (on_db _ l) as [[network_ref|e] l0]; simpl; [|done].
  destruct (on_db _ l0) as [[[]|e] l1]; simpl; [| |done].
  - destruct (on_db _ l1) as [[address|e] l2]; simpl; [|done].
    destruct (on_db _ l2) as [[[]|e] l3]; simpl; [|done].
    by destruct (on_driver _ d) as [[[]|e] d1].
  - unfold Base.allocate_fixed_ip; simpl.
    destruct (on_db _ l1) as [[network_ref'|e] l2]; simpl; [|done].
    destruct (on_db _ l2) as [[address|e] l3]; simpl; [|done].
    by destruct (on_db _ l3) as [[[]|e] l4].
Qed.

End AnyCollaborators.

(** ** The claims that hold against any collaborators *)

Section Claims.
Context {L D : Type}.
Variable on_db : forall c : db.call, L -> result (db.ret c) * L.
Variable on_driver : _driver.call -> D -> result unit * D.

Local Abbreviation run := (run on_db on_driver).

(** C3.  The registry: an unset or empty identifier is replaced by the
    configured default and dispatch goes on with it; [flat] selects the flat
    service and [vlan] the VLAN service; any other identifier raises
    [NotFound], and so does an unset one when the configured default is
    empty.  Nothing falls through to a default class. *)
Theorem type_to_class_registry FLAGS l d :
  let class_of nt := res (run (type_to_class FLAGS nt) l d) in
  class_of None = class_of (Some (flags.network_type FLAGS))
  /\ class_of (Some "") = class_of (Some (flags.network_type FLAGS))
  /\ class_of (Some "flat") = Ok FlatNetworkService
  /\ class_of (Some "vlan") = Ok VlanNetworkService
  /\ (forall s, s <> "" -> s <> "flat" -> s <> "vlan" ->
        exists msg, class_of (Some s) = Err (NotFound msg))
  /\ (flags.network_type FLAGS = "" ->
        exists msg, class_of None = Err (NotFound msg)).
Proof.
  cbv beta zeta. rewrite !type_to_class_res. unfold effective_type; simpl.
  split_and!; try done.
  - by destruct (negb _).
  - by destruct (negb _).
  - intros s Hs Hf Hv.
    rewrite type_to_class_res. unfold effective_type; simpl.
    destruct (String.eqb_spec s ""); [done|]. simpl.
    destruct (String.eqb_spec s "flat"); [done|].
    destruct (String.eqb_spec s "vlan"); [done|]. by eexists.
  - intros Hempty. rewrite Hempty; simpl. by eexists.
Qed.

(** C5.  The first thing [associate_floating_ip] does is the ledger
    write.  Once the write has gone through, the ledger stays as the write
    left it whatever the driver does (nothing undoes the write), the driver
    is told to bind the floating address and then, if that worked, to
    forward it to the fixed address, and the call returns normally exactly
    when both commands worked; otherwise it raises the error of the command
    that failed. *)
Theorem associate_floating_ip_write_then_driver floating fixed ctx l d :
  let write := db.floating_ip_fixed_ip_associate ctx floating fixed in
  let bind_cmd := _driver.bind_floating_ip floating in
  let forward := _driver.ensure_floating_forward floating fixed in
  let o := run (Base.associate_floating_ip floating fixed ctx) l d in
  head (trace o) = Some (EDb write)
  /\ forall l1, on_db write l = (Ok tt, l1) ->
       ledger o = l1
       /\ trace o =
            match (on_driver bind_cmd d).1 with
            | Ok _ => [EDb write; EDriver bind_cmd; EDriver forward]
            | Err _ => [EDb write; EDriver bind_cmd]
            end
       /\ res o =
            match (on_driver bind_cmd d).1 with
            | Ok _ =>
                match (on_driver forward (on_driver bind_cmd d).2).1 with
                | Ok _ => Ok VNone
                | Err e => Err e
                end
            | Err e => Err e
            end.
Proof.
  intros write bind_cmd forward o. subst o.
  rewrite associate_floating_ip_run. cbv zeta. fold write bind_cmd forward.
  split.
  - destruct (on_db write l) as [[[]|e] l1]; [|done].
    destruct (on_driver bind_cmd d) as [[[]|e] d1]; [|done].
    by destruct (on_driver forward d1) as [[[]|e] d2].
  - intros l1 ->.
    destruct (on_driver bind_cmd d) as [[[]|e] d1]; simpl; [|done].
    by destruct (on_driver forward d1) as [[[]|e] d2].
Qed.

(** C6.  [set_network_host] reads the project's network and then issues
    the ledger's set-host update.  When the update raises, the call stops
    there: nothing of the hook runs.  When it returns, the hook of the
    service's class runs next, from the ledger the update produced; the call
    ends where the hook ends, so a hook that raises leaves the update in
    place, and no hook issues a second set-host. *)
Theorem set_network_host_update_then_hook FLAGS self project_id ctx l d
    network_ref l0 :
  let get := db.project_get_network ctx project_id in
  let set :=
    db.network_set_host ctx (net_id network_ref) (flags.node_name FLAGS) in
  let o := run (Service.set_network_host FLAGS self project_id ctx) l d in
  on_db get l = (Ok network_ref, l0) ->
  (forall e l1, on_db set l0 = (Err e, l1) ->
     res o = Err e /\ trace o = [EDb get; EDb set]
     /\ ledger o = l1 /\ driver o = d)
  /\ (forall host l1, on_db set l0 = (Ok host, l1) ->
       let hook :=
         run (Service._on_set_network_host FLAGS self ctx (net_id network_ref))
           l1 d in
       trace o = EDb get :: EDb set :: trace hook
       /\ ledger o = ledger hook /\ driver o = driver hook
       /\ res o = match res hook with
                  | Ok _ => Ok (VStr host)
                  | Err e => Err e
                  end
       /\ forall ctx' nid' host',
            EDb (db.network_set_host ctx' nid' host') ∉ trace hook).
Proof.
  intros get set o Hget. subst o.
  rewrite set_network_host_run. cbv zeta. fold get. rewrite Hget.
  fold set. split.
  - intros e l1 ->. done.
  - intros host l1 ->. simpl. split_and!; try done.
    intros. apply hook_never_sets_host.
Qed.

(** C7.  The flat hook issues one call, [db.network_update] on the network
    it was given, whose dictionary carries [injected = True] and the
    configured bridge, network, netmask, gateway, broadcast and DNS; it
    gives the driver nothing to do. *)
Theorem flat_hook_single_update FLAGS ctx network_id l d :
  let o :=
    run (Service._on_set_network_host FLAGS FlatNetworkService ctx network_id)
      l d in
  exists net : gmap string value,
    trace o = [EDb (db.network_update ctx network_id net)]
    /\ driver o = d
    /\ net !! "injected" = Some (VBool true)
    /\ net !! "bridge" = Some (VStr (flags.flat_network_bridge FLAGS))
    /\ net !! "network_str" = Some (VStr (flags.flat_network_network FLAGS))
    /\ net !! "netmask" = Some (VStr (flags.flat_network_netmask FLAGS))
    /\ net !! "gateway" = Some (VStr (flags.flat_network_gateway FLAGS))
    /\ net !! "broadcast" = Some (VStr (flags.flat_network_broadcast FLAGS))
    /\ net !! "dns" = Some (VStr (flags.flat_network_dns FLAGS)).
Proof.
  cbv zeta. unfold Service._on_set_network_host. rewrite flat_hook_run.
  exists (flat_net FLAGS). simpl.
  destruct (flat_net_fields FLAGS) as (? & ? & ? & ? & ? & ? & ? & ?).
  by split_and!.
Qed.

(** C10.  On a flat service, a host assignment whose read and set-host
    update go through ends with [db.network_update] on that network, and the
    [kind] it writes is the value of the [network_type] flag, whatever the
    kind of the network was. *)
Theorem flat_host_assignment_writes_flag_kind FLAGS project_id ctx l d
    network_ref l0 host l1 :
  let get := db.project_get_network ctx project_id in
  let set :=
    db.network_set_host ctx (net_id network_ref) (flags.node_name FLAGS) in
  let o :=
    run (Service.set_network_host FLAGS FlatNetworkService project_id ctx)
      l d in
  on_db get l = (Ok network_ref, l0) ->
  on_db set l0 = (Ok host, l1) ->
  exists net : gmap string value,
    trace o = [EDb get; EDb set;
               EDb (db.network_update ctx (net_id network_ref) net)]
    /\ net !! "kind" = Some (VStr (flags.network_type FLAGS)).
Proof.
  intros get set o Hget Hset. subst o.
  rewrite set_network_host_run. cbv zeta. fold get. rewrite Hget.
  fold set. rewrite Hset.
  unfold Service._on_set_network_host. rewrite flat_hook_run. simpl.
  exists (flat_net FLAGS). split; [done|]. apply flat_net_fields.
Qed.

(** C2, as the code has it.  When the ledger's disassociate call returns
    the fixed address that was bound, the ledger stays as that call left it,
    the driver is told to unbind the floating address and then, if that
    worked, to remove the forwarding to that fixed address, and the method
    itself returns [None] when both commands worked: the fixed address goes
    to the driver, never to the caller. *)
Theorem disassociate_floating_ip_clear_then_driver floating ctx l d fixed l1 :
  let clear := db.floating_ip_disassociate ctx floating in
  let unbind := _driver.unbind_floating_ip floating in
  let remove := _driver.remove_floating_forward floating fixed in
  let o := run (Base.disassociate_floating_ip floating ctx) l d in
  on_db clear l = (Ok fixed, l1) ->
  ledger o = l1
  /\ trace o =
       match (on_driver unbind d).1 with
       | Ok _ => [EDb clear; EDriver unbind; EDriver remove]
       | Err _ => [EDb clear; EDriver unbind]
       end
  /\ res o =
       match (on_driver unbind d).1 with
       | Ok _ =>
           match (on_driver remove (on_driver unbind d).2).1 with
           | Ok _ => Ok VNone
           | Err e => Err e
           end
       | Err e => Err e
       end
  /\ res o <> Ok (VStr fixed).
Proof.
  intros clear unbind remove o Hclear. subst o.
  rewrite disassociate_floating_ip_run. cbv zeta. fold clear.
  rewrite Hclear. fold unbind remove.
  destruct (on_driver unbind d) as [[[]|e] d1]; simpl; [|done].
  by destruct (on_driver remove d1) as [[[]|e] d2].
Qed.

(** C4.  [setup_fixed_ip] on a project whose network the ledger returns.
    For a VPN instance, when the calls go through, the result is the address
    [db.network_get_vpn_ip_address] gave for that network, the instance was
    associated with it, the last thing done is the driver's
    [ensure_vlan_forward] from the network's public address and port to its
    private address, and [db.fixed_ip_allocate_address] was not called.  For
    any other instance the method is [BaseNetworkService.allocate_fixed_ip]
    run after the two reads. *)
Theorem setup_fixed_ip_vpn_or_pool project_id instance_id ctx l d
    network_ref l0 :
  let get := db.project_get_network ctx project_id in
  let is_vpn := db.instance_is_vpn ctx instance_id in
  let vpn_ip := db.network_get_vpn_ip_address ctx (net_id network_ref) in
  let forward :=
    _driver.ensure_vlan_forward (net_vpn_public_ip_str network_ref)
      (net_vpn_public_port network_ref)
      (net_vpn_private_ip_str network_ref) in
  let o := run (Vlan.setup_fixed_ip project_id instance_id ctx) l d in
  on_db get l = (Ok network_ref, l0) ->
  (forall l1 address l2 l3 d1,
     on_db is_vpn l0 = (Ok true, l1) ->
     on_db vpn_ip l1 = (Ok address, l2) ->
     on_db (db.fixed_ip_instance_associate ctx address instance_id) l2
       = (Ok tt, l3) ->
     on_driver forward d = (Ok tt, d1) ->
     res o = Ok (VStr address)
     /\ trace o =
          [EDb get; EDb is_vpn; EDb vpn_ip;
           ELog DEBUG ("Allocating vpn IP " +:+ address);
           EDb (db.fixed_ip_instance_associate ctx address instance_id);
           EDriver forward]
     /\ ledger o = l3 /\ driver o = d1
     /\ forall ctx' nid',
          EDb (db.fixed_ip_allocate_address ctx' nid') ∉ trace o)
  /\ (forall l1,
       on_db is_vpn l0 = (Ok false, l1) ->
       let base :=
         run (Base.allocate_fixed_ip project_id instance_id ctx) l1 d in
       res o = res base /\ ledger o = ledger base /\ driver o = driver base
       /\ trace o = EDb get :: EDb is_vpn :: trace base).
Proof.
  intros get is_vpn vpn_ip forward o Hget. subst o.
  rewrite setup_fixed_ip_run. cbv zeta. fold get. rewrite Hget.
  fold is_vpn vpn_ip forward. split.
  - intros l1 address l2 l3 d1 -> -> -> ->. simpl. split_and!; try done.
    intros ctx' nid' Hin. repeat apply elem_of_cons in Hin as [[=]|Hin].
    by apply elem_of_nil in Hin.
  - by intros l1 ->.
Qed.

(** C1.  [VlanNetworkService.deallocate_fixed_ip] on an address whose row
    the ledger returns.  Leased: the one further ledger call is
    [db.fixed_ip_deallocate]; neither [db.fixed_ip_release] nor
    [db.fixed_ip_instance_disassociate] is issued, so the association waits
    for [release_fixed_ip].  Not leased: the method is [release_fixed_ip]
    run after the read.  [release_fixed_ip] itself calls
    [db.fixed_ip_release] and, when that returns,
    [db.fixed_ip_instance_disassociate]. *)
Theorem vlan_deallocate_fixed_ip_two_phase address ctx l d fixed_ip_ref l0 :
  let get := db.fixed_ip_get_by_address ctx address in
  let free := db.fixed_ip_deallocate ctx address in
  let clear := db.fixed_ip_release ctx address in
  let forget := db.fixed_ip_instance_disassociate ctx address in
  let o := run (Vlan.deallocate_fixed_ip address ctx) l d in
  on_db get l = (Ok fixed_ip_ref, l0) ->
  (fip_leased fixed_ip_ref = true ->
     trace o = [EDb get; ELog DEBUG ("Deallocating IP " +:+ address); EDb free]
     /\ ledger o = (on_db free l0).2 /\ driver o = d
     /\ res o = match (on_db free l0).1 with
                | Ok _ => Ok VNone
                | Err e => Err e
                end)
  /\ (fip_leased fixed_ip_ref = false ->
       let release := run (Vlan.release_fixed_ip address ctx) l0 d in
       trace o = EDb get :: trace release
       /\ res o = res release /\ ledger o = ledger release
       /\ driver o = driver release)
  /\ (forall l' d' l1,
       let release := run (Vlan.release_fixed_ip address ctx) l' d' in
       on_db clear l' = (Ok tt, l1) ->
       trace release =
         [ELog DEBUG ("Releasing IP " +:+ address); EDb clear; EDb forget]
       /\ ledger release = (on_db forget l1).2 /\ driver release = d'
       /\ res release = match (on_db forget l1).1 with
                        | Ok _ => Ok VNone
                        | Err e => Err e
                        end).
Proof.
  intros get free clear forget o Hget. subst o.
  rewrite vlan_deallocate_fixed_ip_run. cbv zeta. fold get. rewrite Hget.
  split_and!.
  - by intros ->.
  - by intros ->.
  - intros l' d' l1 Hclear. rewrite release_fixed_ip_run. cbv zeta.
    fold clear. by rewrite Hclear.
Qed.


End Claims.

(** ** The claims about what the ledger hands out *)

Section OnLedger.
Context {D : Type}.
Variable on_driver : _driver.call -> D -> result unit * D.

Local Abbreviation run := (run Ledger.handle on_driver).

(** Replacing the row of a free address by one that is not available takes
    exactly that address out of the pool. *)
Lemma free_pool_take l nid a ip ip' :
  Ledger.free_pool l nid !! a = Some ip ->
  Ledger.available nid ip' = false ->
  Ledger.free_pool
    (Ledger.with_fixed_ips l (<[a := ip']> (Ledger.fixed_ips l))) nid
  = delete a (Ledger.free_pool l nid).
Proof.
  intros Hfree Hno. unfold Ledger.free_pool; simpl.
  rewrite map_filter_insert_False; [|simpl; congruence].
  apply map_filter_delete.
Qed.

Lemma fixed_ip_allocate_address_some l nid n :
  size (Ledger.free_pool l nid) = S n ->
  exists a ip,
    Ledger.free_pool l nid !! a = Some ip
    /\ Ledger.fixed_ip_allocate_address l nid =
         (Ok a,
          Ledger.with_fixed_ips l
            (<[a := Ledger.set_allocated true ip]> (Ledger.fixed_ips l))).
Proof.
  intros Hsize. unfold Ledger.fixed_ip_allocate_address.
  destruct (map_to_list (Ledger.free_pool l nid)) as [|[a ip] rest] eqn:Hl.
  - apply map_to_list_empty_iff in Hl. rewrite Hl, map_size_empty in Hsize.
    lia.
  - exists a, ip. split; [|done].
    apply elem_of_map_to_list. rewrite Hl. apply elem_of_cons; by left.
Qed.

Lemma fixed_ip_allocate_address_none l nid :
  size (Ledger.free_pool l nid) = 0%nat ->
  Ledger.fixed_ip_allocate_address l nid = (Err AddressSpaceExhausted, l).
Proof.
  intros Hsize%map_size_empty_iff. unfold Ledger.fixed_ip_allocate_address.
  by rewrite Hsize, map_to_list_empty.
Qed.

(** One allocation from a pool that is not empty: the address comes from
    the pool, its row is marked allocated and bound to the instance, and no
    other row changes. *)
Lemma allocate_fixed_ip_step project_id instance_id ctx l d network_ref n :
  Ledger.project_network l project_id = Some network_ref ->
  size (Ledger.free_pool l (net_id network_ref)) = S n ->
  exists a ip,
    Ledger.free_pool l (net_id network_ref) !! a = Some ip
    /\ run (Base.allocate_fixed_ip project_id instance_id ctx) l d =
         Outcome (Ok (VStr a))
           (Ledger.with_fixed_ips l
              (<[a := Ledger.set_instance (Some instance_id)
                        (Ledger.set_allocated true ip)]> (Ledger.fixed_ips l)))
           d
           [EDb (db.project_get_network ctx project_id);
            EDb (db.fixed_ip_allocate_address ctx (net_id network_ref));
            EDb (db.fixed_ip_instance_associate ctx a instance_id)].
Proof.
  intros Hnet Hsize.
  destruct (fixed_ip_allocate_address_some _ _ _ Hsize) as (a & ip & Ha & Hal).
  exists a, ip. split; [done|].
  rewrite allocate_fixed_ip_run. cbv zeta. simpl. rewrite Hnet. simpl.
  rewrite Hal. unfold Ledger.alter_fixed_ip. simpl.
  rewrite lookup_insert_eq. simpl. by rewrite insert_insert_eq.
Qed.

Lemma allocate_fixed_ip_exhausted project_id instance_id ctx l d network_ref :
  Ledger.project_network l project_id = Some network_ref ->
  size (Ledger.free_pool l (net_id network_ref)) = 0%nat ->
  run (Base.allocate_fixed_ip project_id instance_id ctx) l d =
    Outcome (Err AddressSpaceExhausted) l d
      [EDb (db.project_get_network ctx project_id);
       EDb (db.fixed_ip_allocate_address ctx (net_id network_ref))].
Proof.
  intros Hnet Hsize.
  rewrite allocate_fixed_ip_run. cbv zeta. simpl. rewrite Hnet. simpl.
  by rewrite fixed_ip_allocate_address_none.
Qed.

Lemma available_after_allocation nid i ip :
  Ledger.available nid
    (Ledger.set_instance i (Ledger.set_allocated true ip)) = false.
Proof. unfold Ledger.available; simpl. by rewrite andb_false_r. Qed.

(** As many allocations as the pool has free addresses, and one more. *)
Lemma allocate_sequence project_id ctx network_ref extra instances :
  forall l d,
    Ledger.project_network l project_id = Some network_ref ->
    size (Ledger.free_pool l (net_id network_ref)) = length instances ->
    exists addresses l',
      run_all Ledger.handle on_driver
        (map (fun i => Base.allocate_fixed_ip project_id i ctx)
           (instances ++ [extra])%list) l d
      = ((map (fun a => Ok (VStr a)) addresses
            ++ [Err AddressSpaceExhausted])%list,
         (l', d))
      /\ NoDup addresses
      /\ (forall a, a ∈ addresses ->
            is_Some (Ledger.free_pool l (net_id network_ref) !! a))
      /\ (forall a, a ∉ addresses ->
            Ledger.fixed_ips l' !! a = Ledger.fixed_ips l !! a)
      /\ Forall2 (bound_to l') addresses instances.
Proof.
  induction instances as [|i instances IH]; intros l d Hnet Hsize.
  - exists [], l. cbn [map app]. rewrite run_all_cons.
    rewrite (allocate_fixed_ip_exhausted _ _ _ _ _ _ Hnet Hsize). simpl.
    split_and!; [done|constructor|by intros a ?%elem_of_nil|done|constructor].
  - simpl in Hsize.
    destruct (allocate_fixed_ip_step project_id i ctx l d _ _ Hnet Hsize)
      as (a & ip & Ha & Hrun).
    set (ip' := Ledger.set_instance (Some i) (Ledger.set_allocated true ip))
      in Hrun.
    set (l1 := Ledger.with_fixed_ips l (<[a := ip']> (Ledger.fixed_ips l)))
      in Hrun.
    assert (Hpool : Ledger.free_pool l1 (net_id network_ref)
                    = delete a (Ledger.free_pool l (net_id network_ref))).
    { apply (free_pool_take _ _ _ ip); [done|].
      apply available_after_allocation. }
    destruct (IH l1 d)
      as (addresses & l' & Hall & Hnodup & Hfree & Hframe & Hb).
    { done. }
    { rewrite Hpool, map_size_delete_Some, Hsize; [done|by eexists]. }
    assert (Hfresh : a ∉ addresses).
    { intros [x Hx]%Hfree. by rewrite Hpool, lookup_delete_eq in Hx. }
    exists (a :: addresses), l'. cbn [map app].
    rewrite run_all_cons, Hrun. cbn [res ledger driver].
    rewrite Hall. cbn [fst snd]. split_and!.
    + done.
    + by constructor.
    + intros x [->|Hx]%elem_of_cons; [by eexists|].
      destruct (Hfree x Hx) as [y Hy]. rewrite Hpool in Hy.
      apply lookup_delete_Some in Hy as [_ Hy]. by eexists.
    + intros x Hx. apply not_elem_of_cons in Hx as [Hne Hx].
      rewrite (Hframe x Hx). subst l1; simpl. by rewrite lookup_insert_ne.
    + constructor; [|done].
      exists ip'. rewrite (Hframe a Hfresh). subst l1; simpl.
      by rewrite lookup_insert_eq.
Qed.

(** C8.  A project whose network has [N] free addresses in the ledger asks
    [N] times for a fixed address, for the instances of [instances], and
    once more.  The first [N] calls return [N] addresses, no two the same,
    each of them free before the first call and, at the end, allocated and
    bound to the instance it was asked for; the last call raises
    [AddressSpaceExhausted].  The driver is not involved. *)
Theorem allocate_fixed_ip_until_exhausted project_id ctx network_ref
    instances extra l d :
  Ledger.project_network l project_id = Some network_ref ->
  size (Ledger.free_pool l (net_id network_ref)) = length instances ->
  exists addresses l',
    run_all Ledger.handle on_driver
      (map (fun i => Base.allocate_fixed_ip project_id i ctx)
         (instances ++ [extra])%list) l d
    = ((map (fun a => Ok (VStr a)) addresses
          ++ [Err AddressSpaceExhausted])%list,
       (l', d))
    /\ length addresses = length instances
    /\ NoDup addresses
    /\ (forall a, a ∈ addresses ->
          is_Some (Ledger.free_pool l (net_id network_ref) !! a))
    /\ Forall2 (bound_to l') addresses instances.
Proof.
  intros Hnet Hsize.
  destruct (allocate_sequence project_id ctx network_ref extra instances l d
              Hnet Hsize) as (addresses & l' & Hall & Hnodup & Hfree & _ & Hb).
  exists addresses, l'. split_and!; try done.
  by apply Forall2_length in Hb.
Qed.

End OnLedger.

(** ** Runs on the deployment *)

(** An identifier that is neither [flat] nor [vlan] is refused. *)
Lemma type_to_class_registry_witness :
  exists msg,
    res (run Ledger.handle obedient
           (type_to_class Deployment.FLAGS (Some "ipsec")) Deployment.ledger [])
    = Err (NotFound msg).
Proof.
  destruct (type_to_class_registry Ledger.handle obedient Deployment.FLAGS
              Deployment.ledger []) as (_ & _ & _ & _ & H & _).
  apply H; discriminate.
Defined.

(** The driver refuses to bind: the association stays in the ledger. *)
Lemma associate_floating_ip_write_then_driver_witness :
  let o :=
    run Ledger.handle (refusing Deployment.stubborn)
      (Base.associate_floating_ip "4.4.4.11" "10.0.0.6" None)
      Deployment.ledger [] in
  Ledger.floating_ips (ledger o) !! "4.4.4.11"
    = Some (Ledger.FloatingIp "host1" None (Some "10.0.0.6"))
  /\ trace o =
       [EDb (db.floating_ip_fixed_ip_associate None "4.4.4.11" "10.0.0.6");
        EDriver (_driver.bind_floating_ip "4.4.4.11")]
  /\ res o = Err (OtherError "driver").
Proof.
  intros o; subst o.
  destruct (associate_floating_ip_write_then_driver Ledger.handle
              (refusing Deployment.stubborn) "4.4.4.11" "10.0.0.6" None
              Deployment.ledger []) as [_ H].
  destruct (H _ eq_refl) as (Hl & Ht & Hr).
  split_and!; [by rewrite Hl | exact Ht | exact Hr].
Defined.

(** The driver refuses the bridge: [host1] stays recorded as the host of
    the network of [tenantB]. *)
Lemma set_network_host_update_then_hook_witness :
  let o :=
    run Ledger.handle (refusing Deployment.stubborn)
      (Service.set_network_host Deployment.FLAGS VlanNetworkService "tenantB"
         None)
      Deployment.ledger [] in
  res o = Err (OtherError "driver")
  /\ trace o =
       [EDb (db.project_get_network None "tenantB");
        EDb (db.network_set_host None 2 "host1");
        EDb (db.network_get 2);
        EDriver (_driver.ensure_vlan_bridge 105 "br105")]
  /\ net_node_name <$> Ledger.networks (ledger o) !! 2 = Some (Some "host1").
Proof.
  intros o; subst o.
  destruct (set_network_host_update_then_hook Ledger.handle
              (refusing Deployment.stubborn) Deployment.FLAGS
              VlanNetworkService "tenantB" None Deployment.ledger []
              Deployment.netB Deployment.ledger eq_refl) as [_ H].
  destruct (H "host1" _ eq_refl) as (Ht & Hl & _ & Hr & _).
  split_and!; [exact Hr | exact Ht | by rewrite Hl].
Defined.

(** With [--network_type=vlan], assigning a host to the flat network of
    [tenantA] turns its stored kind from [flat] into [vlan]. *)
Lemma flat_host_assignment_writes_flag_kind_witness :
  let o :=
    run Ledger.handle obedient
      (Service.set_network_host Deployment.vlan_FLAGS FlatNetworkService
         "tenantA" None)
      Deployment.ledger [] in
  (exists net : gmap string value,
     trace o =
       [EDb (db.project_get_network None "tenantA");
        EDb (db.network_set_host None 1 "host1");
        EDb (db.network_update None 1 net)]
     /\ net !! "kind" = Some (VStr "vlan"))
  /\ net_kind <$> Ledger.networks Deployment.ledger !! 1 = Some (Some "flat")
  /\ net_kind <$> Ledger.networks (ledger o) !! 1 = Some (Some "vlan").
Proof.
  intros o. split; [|by vm_compute].
  exact (flat_host_assignment_writes_flag_kind Ledger.handle obedient
           Deployment.vlan_FLAGS "tenantA" None Deployment.ledger []
           Deployment.netA Deployment.ledger "host1" _ eq_refl eq_refl).
Defined.

(** 4.4.4.10 loses its binding to 10.0.0.5, and the driver unbinds it and
    removes the forwarding to 10.0.0.5. *)
Lemma disassociate_floating_ip_clear_then_driver_witness :
  let o :=
    run Ledger.handle obedient
      (Base.disassociate_floating_ip "4.4.4.10" None) Deployment.ledger [] in
  Ledger.floating_ips (ledger o) !! "4.4.4.10"
    = Some (Ledger.FloatingIp "host1" (Some "tenantB") None)
  /\ trace o =
       [EDb (db.floating_ip_disassociate None "4.4.4.10");
        EDriver (_driver.unbind_floating_ip "4.4.4.10");
        EDriver (_driver.remove_floating_forward "4.4.4.10" "10.0.0.5")]
  /\ res o = Ok VNone.
Proof.
  intros o; subst o.
  destruct (disassociate_floating_ip_clear_then_driver Ledger.handle obedient
              "4.4.4.10" None Deployment.ledger [] "10.0.0.5" _ eq_refl)
    as (Hl & Ht & Hr & _).
  split_and!; [by rewrite Hl | exact Ht | exact Hr].
Defined.

(** C2 as stated fails: the floating address 4.4.4.10 is bound to
    10.0.0.5, the call goes through, and what the caller gets is [None],
    not the fixed address. *)
Lemma disassociate_floating_ip_returns_none :
  let o :=
    run Ledger.handle obedient
      (Base.disassociate_floating_ip "4.4.4.10" None) Deployment.ledger [] in
  Ledger.flo_fixed_ip <$> Ledger.floating_ips Deployment.ledger !! "4.4.4.10"
    = Some (Some "10.0.0.5")
  /\ Ledger.flo_fixed_ip <$> Ledger.floating_ips (ledger o) !! "4.4.4.10"
     = Some None
  /\ res o = Ok VNone
  /\ ~ res o = Ok (VStr "10.0.0.5").
Proof. by vm_compute. Qed.

(** The VPN endpoint of [tenantB] gets the VPN address of its network. *)
Lemma setup_fixed_ip_vpn_or_pool_witness :
  let o :=
    run Ledger.handle obedient
      (Vlan.setup_fixed_ip "tenantB" "vpn-instance-1" None)
      Deployment.ledger [] in
  res o = Ok (VStr "10.0.0.2")
  /\ driver o = [_driver.ensure_vlan_forward "4.4.4.4" 1001 "10.0.0.2"]
  /\ fip_instance_id <$> Ledger.fixed_ips (ledger o) !! "10.0.0.2"
     = Some (Some "vpn-instance-1").
Proof.
  intros o; subst o.
  destruct (setup_fixed_ip_vpn_or_pool Ledger.handle obedient "tenantB"
              "vpn-instance-1" None Deployment.ledger [] Deployment.netB
              Deployment.ledger eq_refl) as [H _].
  destruct (H Deployment.ledger "10.0.0.2" Deployment.ledger _ _
              eq_refl eq_refl eq_refl eq_refl) as (Hr & _ & Hl & Hd & _).
  split_and!; [exact Hr | exact Hd | by rewrite Hl].
Defined.

(** The leased address 10.0.0.5 keeps its instance when deallocated, and
    loses it when released. *)
Lemma vlan_deallocate_fixed_ip_two_phase_witness :
  let o :=
    run Ledger.handle obedient (Vlan.deallocate_fixed_ip "10.0.0.5" None)
      Deployment.ledger [] in
  let o' :=
    run Ledger.handle obedient (Vlan.release_fixed_ip "10.0.0.5" None)
      (ledger o) [] in
  Ledger.fixed_ips Deployment.ledger !! "10.0.0.5"
    = Some (FixedIp 2 (Some "i-5") true true)
  /\ Ledger.fixed_ips (ledger o) !! "10.0.0.5"
     = Some (FixedIp 2 (Some "i-5") false true)
  /\ Ledger.fixed_ips (ledger o') !! "10.0.0.5"
     = Some (FixedIp 2 None false false).
Proof.
  intros o o'.
  destruct (vlan_deallocate_fixed_ip_two_phase Ledger.handle obedient
              "10.0.0.5" None Deployment.ledger [] _ _ eq_refl)
    as (Hleased & _ & Hrelease).
  destruct (Hleased eq_refl) as (_ & Hl & _).
  destruct (Hrelease (ledger o) [] _ eq_refl) as (_ & Hl' & _).
  subst o'; subst o.
  split_and!; [done | by rewrite Hl | by rewrite Hl'].
Defined.

(** The network of [tenantB] has two free addresses: two allocations go
    through and the third is refused. *)
Lemma allocate_fixed_ip_until_exhausted_witness :
  exists addresses l',
    run_all Ledger.handle obedient
      (map (fun i => Base.allocate_fixed_ip "tenantB" i None)
         (["i-7"; "i-8"] ++ ["i-9"])%list) Deployment.ledger []
    = ((map (fun a => Ok (VStr a)) addresses
          ++ [Err AddressSpaceExhausted])%list,
       (l', []))
    /\ length addresses = 2%nat
    /\ NoDup addresses
    /\ (forall a, a ∈ addresses ->
          is_Some (Ledger.free_pool Deployment.ledger 2 !! a))
    /\ Forall2 (bound_to l') addresses ["i-7"; "i-8"].
Proof.
  apply (allocate_fixed_ip_until_exhausted obedient "tenantB" None
           Deployment.netB ["i-7"; "i-8"] "i-9" Deployment.ledger []).
  - reflexivity.
  - by vm_compute.
Defined.


(** ** Beyond the claims: the module as a whole *)

Section WholeModule.
Context {L D : Type}.
Variable on_db : forall c : db.call, L -> result (db.ret c) * L.
Variable on_driver : _driver.call -> D -> result unit * D.

Local Abbreviation run := (run on_db on_driver).

(** Case analysis on what the collaborators and the tests of a method
    answer, one step after the other. *)
Ltac answers :=
  simpl;
  repeat
    (match goal with
     | |- context [on_db ?c ?l] =>
         let x := fresh "x" in
         let e := fresh "e" in
         let l' := fresh "l" in
         destruct (on_db c l) as [[x|e] l']
     | |- context [on_driver ?c ?d] =>
         let e := fresh "e" in
         let d' := fresh "d" in
         destruct (on_driver c d) as [[[]|e] d']
     | |- context [if ?b then _ else _] => destruct b
     end; simpl).

Lemma ledger_first_commands tr c :
  ledger_first tr = true -> last tr = Some (EDb c) -> commands tr = [].
Proof.
  induction tr as [|ev tr IH]; [done|].
  intros Hfirst Hlast. destruct ev as [c'|c'|lvl msg]; simpl in *.
  - destruct tr as [|ev' tr']; [done|]. by apply IH.
  - exfalso. clear IH. induction tr as [|ev' tr' IH']; [done|].
    simpl in Hfirst. apply andb_true_iff in Hfirst as [Hev Hrest].
    destruct tr' as [|ev'' tr'']; [by destruct ev'; simplify_eq/=|].
    by apply IH'.
  - destruct tr as [|ev' tr']; [done|]. by apply IH.
Qed.

(** A run that gives the driver no command leaves the driver as it was. *)
Lemma run_no_command {A : Type} (p : prog A) l d :
  commands (trace (run p l d)) = [] -> driver (run p l d) = d.
Proof.
  revert l d; induction p as [a|e|c k IH|c k IH|lvl msg k IH]; intros l d;
    simpl; try done.
  - destruct (on_db c l) as [[x|e] l']; simpl; [apply IH|done].
  - by destruct (on_driver c d) as [[x|e] d'].
  - apply IH.
Qed.

(** X10.  In every call the module answers, all datastore calls come before
    all driver commands.  So a call whose last step was a datastore call,
    failed or not, has given the driver no command and left it as it
    was. *)
Theorem ledger_before_driver FLAGS p l d :
  operation FLAGS p ->
  ledger_first (trace (run p l d)) = true
  /\ forall c, last (trace (run p l d)) = Some (EDb c) ->
       commands (trace (run p l d)) = [] /\ driver (run p l d) = d.
Proof.
  intros Hop.
  assert (Hfirst : ledger_first (trace (run p l d)) = true).
  { destruct Hop as [| |self| |self|self|cls| | | | | | | | |];
      try destruct self; try destruct cls;
      unfold setup_compute_network, type_to_class, get_host_for_project,
        Service.set_network_host, Base.set_network_host,
        Service._on_set_network_host, Service.deallocate_fixed_ip,
        Service.setup_compute_network, Base._on_set_network_host,
        Flat._on_set_network_host, Vlan._on_set_network_host,
        Base.setup_compute_network, Flat.setup_compute_network,
        Vlan.setup_compute_network, Base.allocate_fixed_ip,
        Base.deallocate_fixed_ip, Vlan.deallocate_fixed_ip,
        Vlan.release_fixed_ip, Vlan.lease_fixed_ip, Vlan.setup_fixed_ip,
        Vlan.__init__, Vlan.restart_nets, Base.allocate_floating_ip,
        Base.associate_floating_ip, Base.disassociate_floating_ip,
        Base.deallocate_floating_ip;
      answers; done. }
  split; [done|]. intros c Hlast.
  assert (Hnone : commands (trace (run p l d)) = [])
    by by eapply ledger_first_commands.
  split; [done|]. by apply run_no_command.
Qed.

(** X2.  The registry is a pure lookup: it makes no datastore call, gives
    the driver no command and leaves both as they were; it logs nothing
    when the identifier is set, and exactly one line otherwise, the warning
    that names the configured default; and it never answers with the base
    class. *)
Theorem type_to_class_touches_nothing FLAGS network_type l d :
  let o := run (type_to_class FLAGS network_type) l d in
  ledger o = l /\ driver o = d
  /\ queries (trace o) = [] /\ commands (trace o) = []
  /\ trace o =
       (if truthy network_type then []
        else [ELog WARN ("Network type couldn't be determined, using "
                           +:+ flags.network_type FLAGS)])
  /\ res o <> Ok BaseNetworkService.
Proof.
  destruct (type_to_class_pure on_db on_driver FLAGS network_type l d)
    as (Hl & Hd & Ht).
  cbv zeta. rewrite Hl, Hd, Ht, type_to_class_res. cbv zeta.
  split_and!; try done; try by destruct (truthy network_type).
  by repeat case_match.
Qed.

(** X1.  [setup_compute_network] reads the project's network with no
    context and makes no other datastore call.  What it then does follows
    the kind of the network, or the [network_type] flag when the kind is
    unset: for [vlan] the one driver command is [ensure_vlan_bridge] with
    the VLAN and bridge of the network; for [flat] the driver gets no
    command and the call returns; for anything else the driver gets no
    command and the call raises [NotFound]. *)
Theorem setup_compute_network_by_kind FLAGS project_id l d network l0 :
  let get := db.project_get_network None project_id in
  let ensure :=
    _driver.ensure_vlan_bridge (net_vlan network) (net_bridge network) in
  let kind := effective_type FLAGS (net_kind network) in
  let o := run (setup_compute_network FLAGS project_id) l d in
  on_db get l = (Ok network, l0) ->
  ledger o = l0 /\ queries (trace o) = [get]
  /\ (kind = "vlan" ->
       commands (trace o) = [ensure]
       /\ driver o = (on_driver ensure d).2
       /\ res o = match (on_driver ensure d).1 with
                  | Ok _ => Ok VNone
                  | Err e => Err e
                  end)
  /\ (kind = "flat" ->
       commands (trace o) = [] /\ driver o = d /\ res o = Ok VNone)
  /\ (kind <> "flat" -> kind <> "vlan" ->
       commands (trace o) = [] /\ driver o = d
       /\ exists msg, res o = Err (NotFound msg)).
Proof.
  intros get ensure kind o Hget. subst o kind.
  unfold setup_compute_network, type_to_class, effective_type. simpl.
  fold get. rewrite Hget.
  destruct (truthy (net_kind network)); simpl.
  - destruct (String.eqb_spec (default "" (net_kind network)) "flat")
      as [->|Hflat]; simpl.
    { split_and!; try done. }
    destruct (String.eqb_spec (default "" (net_kind network)) "vlan")
      as [->|Hvlan]; simpl.
    { fold ensure. destruct (on_driver ensure d) as [[[]|e] d1]; simpl;
        split_and!; done. }
    split_and!; try done. intros _ _. split_and!; try done. by eexists.
  - destruct (String.eqb_spec (flags.network_type FLAGS) "flat")
      as [->|Hflat]; simpl.
    { split_and!; try done. }
    destruct (String.eqb_spec (flags.network_type FLAGS) "vlan")
      as [->|Hvlan]; simpl.
    { fold ensure. destruct (on_driver ensure d) as [[[]|e] d1]; simpl;
        split_and!; done. }
    split_and!; try done. intros _ _. split_and!; try done. by eexists.
Qed.

(** X3.  A host assignment on a VLAN service whose three datastore calls
    go through gives the driver exactly one command, [ensure_vlan_bridge]
    with the VLAN and bridge of the row [db.network_get] returned.  It does
    so whichever host the ledger reports as owner, and that host, not the
    flag of this one, is what the call returns. *)
Theorem vlan_host_assignment_bridge FLAGS project_id ctx l d
    network l0 host l1 row l2 :
  let get := db.project_get_network ctx project_id in
  let set :=
    db.network_set_host ctx (net_id network) (flags.node_name FLAGS) in
  let reread := db.network_get (net_id network) in
  let ensure := _driver.ensure_vlan_bridge (net_vlan row) (net_bridge row) in
  let o :=
    run (Service.set_network_host FLAGS VlanNetworkService project_id ctx)
      l d in
  on_db get l = (Ok network, l0) ->
  on_db set l0 = (Ok host, l1) ->
  on_db reread l1 = (Ok row, l2) ->
  trace o = [EDb get; EDb set; EDb reread; EDriver ensure]
  /\ ledger o = l2
  /\ driver o = (on_driver ensure d).2
  /\ res o = match (on_driver ensure d).1 with
             | Ok _ => Ok (VStr host)
             | Err e => Err e
             end.
Proof.
  intros get set reread ensure o Hget Hset Hre. subst o.
  rewrite set_network_host_run. cbv zeta. fold get. rewrite Hget.
  fold set. rewrite Hset.
  unfold Service._on_set_network_host. rewrite vlan_hook_run. cbv zeta.
  fold reread. rewrite Hre. fold ensure. simpl.
  by destruct (on_driver ensure d) as [[[]|e] d1].
Qed.

(** X4.  What the VLAN hook does on the network host is what
    [VlanNetworkService.setup_compute_network] does on a compute host for
    the row [db.network_get] returns: the same single driver command, after
    the read.  The compute-host method makes no datastore call at all. *)
Theorem vlan_hook_is_compute_setup ctx network_id l d row l1 :
  let reread := db.network_get network_id in
  let hook := run (Vlan._on_set_network_host ctx network_id) l d in
  let compute := run (Vlan.setup_compute_network row) l1 d in
  on_db reread l = (Ok row, l1) ->
  trace hook = EDb reread :: trace compute
  /\ res hook = res compute
  /\ ledger hook = ledger compute /\ driver hook = driver compute
  /\ queries (trace compute) = []
  /\ commands (trace compute)
     = [_driver.ensure_vlan_bridge (net_vlan row) (net_bridge row)]
  /\ ledger compute = l1.
Proof.
  intros reread hook compute Hre. subst hook compute.
  rewrite vlan_hook_run. cbv zeta. fold reread. rewrite Hre.
  unfold Vlan.setup_compute_network. simpl.
  by destruct (on_driver _ d) as [[[]|e] d1].
Qed.

(** X5.  [allocate_fixed_ip] does not give an address back.  When the
    ledger has handed out an address and the association with the instance
    then raises, the call raises the same error, the caller gets no
    address, and the method makes no further call: in particular no
    [db.fixed_ip_deallocate].  When the allocation itself raises, no
    association is attempted. *)
Theorem allocate_fixed_ip_no_compensation project_id instance_id ctx l d
    network l0 :
  let get := db.project_get_network ctx project_id in
  let alloc := db.fixed_ip_allocate_address ctx (net_id network) in
  let o := run (Base.allocate_fixed_ip project_id instance_id ctx) l d in
  on_db get l = (Ok network, l0) ->
  (forall e l1, on_db alloc l0 = (Err e, l1) ->
     res o = Err e /\ trace o = [EDb get; EDb alloc] /\ ledger o = l1)
  /\ (forall address l1 e l2,
       let assoc := db.fixed_ip_instance_associate ctx address instance_id in
       on_db alloc l0 = (Ok address, l1) ->
       on_db assoc l1 = (Err e, l2) ->
       res o = Err e
       /\ trace o = [EDb get; EDb alloc; EDb assoc]
       /\ ledger o = l2
       /\ forall ctx' address',
            db.fixed_ip_deallocate ctx' address' ∉ queries (trace o)).
Proof.
  intros get alloc o Hget. subst o.
  rewrite allocate_fixed_ip_run. cbv zeta. fold get. rewrite Hget.
  fold alloc. split.
  - by intros e l1 ->.
  - intros address l1 e l2 Halloc Hassoc.
    rewrite Halloc. cbv beta iota zeta. rewrite Hassoc.
    simpl. split_and!; try done.
    intros ctx' address' Hin. repeat apply elem_of_cons in Hin as [[=]|Hin].
    by apply elem_of_nil in Hin.
Qed.

(** X6.  The VPN path of [setup_fixed_ip], once the ledger has named the
    VPN address.  When the association raises, the driver gets no command.
    When the association goes through and the driver then refuses the
    forwarding, the call raises the driver's error and returns no address,
    yet the ledger stays as the association left it: nothing takes the
    association back. *)
Theorem setup_fixed_ip_vpn_failures project_id instance_id ctx l d
    network l0 l1 address l2 :
  let get := db.project_get_network ctx project_id in
  let is_vpn := db.instance_is_vpn ctx instance_id in
  let vpn_ip := db.network_get_vpn_ip_address ctx (net_id network) in
  let assoc := db.fixed_ip_instance_associate ctx address instance_id in
  let forward :=
    _driver.ensure_vlan_forward (net_vpn_public_ip_str network)
      (net_vpn_public_port network) (net_vpn_private_ip_str network) in
  let o := run (Vlan.setup_fixed_ip project_id instance_id ctx) l d in
  on_db get l = (Ok network, l0) ->
  on_db is_vpn l0 = (Ok true, l1) ->
  on_db vpn_ip l1 = (Ok address, l2) ->
  (forall e l3, on_db assoc l2 = (Err e, l3) ->
     res o = Err e /\ commands (trace o) = [] /\ driver o = d
     /\ ledger o = l3)
  /\ (forall l3 e d1,
       on_db assoc l2 = (Ok tt, l3) ->
       on_driver forward d = (Err e, d1) ->
       res o = Err e /\ ledger o = l3
       /\ queries (trace o) = [get; is_vpn; vpn_ip; assoc]
       /\ commands (trace o) = [forward]).
Proof.
  intros get is_vpn vpn_ip assoc forward o Hget Hvpn Hip. subst o.
  rewrite setup_fixed_ip_run. cbv zeta. fold get. rewrite Hget.
  fold is_vpn. rewrite Hvpn. fold vpn_ip. rewrite Hip.
  fold assoc forward. split.
  - by intros e l3 ->.
  - intros l3 e d1 Hassoc Hfwd. by rewrite Hassoc, Hfwd.
Qed.

(** X7.  The pool path of [setup_fixed_ip] reads the project's network a
    second time, inside [allocate_fixed_ip], and it is the network of this
    second read whose pool the address is taken from. *)
Theorem setup_fixed_ip_pool_second_read project_id instance_id ctx l d
    first l0 l1 second l2 address l3 l4 :
  let get := db.project_get_network ctx project_id in
  let is_vpn := db.instance_is_vpn ctx instance_id in
  let alloc := db.fixed_ip_allocate_address ctx (net_id second) in
  let assoc := db.fixed_ip_instance_associate ctx address instance_id in
  let o := run (Vlan.setup_fixed_ip project_id instance_id ctx) l d in
  on_db get l = (Ok first, l0) ->
  on_db is_vpn l0 = (Ok false, l1) ->
  on_db get l1 = (Ok second, l2) ->
  on_db alloc l2 = (Ok address, l3) ->
  on_db assoc l3 = (Ok tt, l4) ->
  res o = Ok (VStr address)
  /\ trace o = [EDb get; EDb is_vpn; EDb get; EDb alloc; EDb assoc]
  /\ ledger o = l4 /\ driver o = d.
Proof.
  intros get is_vpn alloc assoc o Hget Hvpn Hget' Halloc Hassoc. subst o.
  rewrite setup_fixed_ip_run. cbv zeta. fold get. rewrite Hget.
  fold is_vpn. rewrite Hvpn.
  rewrite allocate_fixed_ip_run. cbv zeta. fold get. rewrite Hget'.
  fold alloc. rewrite Halloc. fold assoc. by rewrite Hassoc.
Qed.

(** X8.  On a base or flat service, [deallocate_fixed_ip] starts with
    [db.fixed_ip_deallocate] without reading the row, so whatever its
    leased flag: when that call raises nothing else is done, and when it
    returns the association is cleared next.  The driver is never
    involved. *)
Theorem base_deallocate_fixed_ip_order self address ctx l d :
  let free := db.fixed_ip_deallocate ctx address in
  let forget := db.fixed_ip_instance_disassociate ctx address in
  let o := run (Service.deallocate_fixed_ip self address ctx) l d in
  self <> VlanNetworkService ->
  driver o = d
  /\ (forall ctx' address',
        db.fixed_ip_get_by_address ctx' address' ∉ queries (trace o))
  /\ (forall e l1, on_db free l = (Err e, l1) ->
        res o = Err e /\ trace o = [EDb free] /\ ledger o = l1)
  /\ (forall l1, on_db free l = (Ok tt, l1) ->
        trace o = [EDb free; EDb forget]
        /\ ledger o = (on_db forget l1).2
        /\ res o = match (on_db forget l1).1 with
                   | Ok _ => Ok VNone
                   | Err e => Err e
                   end).
Proof.
  intros free forget o Hself. subst o.
  assert (Service.deallocate_fixed_ip self = Base.deallocate_fixed_ip) as ->
    by by destruct self.
  unfold Base.deallocate_fixed_ip. simpl. fold free forget.
  destruct (on_db free l) as [[[]|e] l1]; simpl.
  - destruct (on_db forget l1) as [[[]|e] l2] eqn:Hforget; simpl;
      split_and!; try done.
    + intros ctx' address' Hin.
      repeat apply elem_of_cons in Hin as [[=]|Hin].
      by apply elem_of_nil in Hin.
    + intros ? [= <-]. by rewrite Hforget.
    + intros ctx' address' Hin.
      repeat apply elem_of_cons in Hin as [[=]|Hin].
      by apply elem_of_nil in Hin.
    + intros ? [= <-]. by rewrite Hforget.
  - split_and!; try done.
    + intros ctx' address' Hin.
      repeat apply elem_of_cons in Hin as [[=]|Hin].
      by apply elem_of_nil in Hin.
    + by intros ? ? [= <- <-].
Qed.

(** X9.  How [VlanNetworkService.deallocate_fixed_ip] fails.  When the row
    cannot be read, no ledger write is attempted.  On a row that is not
    leased, when [db.fixed_ip_release] raises, the association is not
    cleared: [db.fixed_ip_instance_disassociate] is not called, and neither
    is [db.fixed_ip_deallocate]. *)
Theorem vlan_deallocate_fixed_ip_failures address ctx l d :
  let get := db.fixed_ip_get_by_address ctx address in
  let clear := db.fixed_ip_release ctx address in
  let o := run (Vlan.deallocate_fixed_ip address ctx) l d in
  (forall e l0, on_db get l = (Err e, l0) ->
     res o = Err e /\ trace o = [EDb get] /\ ledger o = l0 /\ driver o = d)
  /\ (forall row l0 e l1,
       on_db get l = (Ok row, l0) ->
       fip_leased row = false ->
       on_db clear l0 = (Err e, l1) ->
       res o = Err e /\ queries (trace o) = [get; clear]
       /\ ledger o = l1 /\ driver o = d).
Proof.
  intros get clear o. subst o.
  rewrite vlan_deallocate_fixed_ip_run. cbv zeta. fold get. split.
  - by intros e l0 ->.
  - intros row l0 e l1 -> -> Hclear.
    rewrite release_fixed_ip_run. cbv zeta. fold clear. by rewrite Hclear.
Qed.

(** X11.  The driver hears of a floating address only after the ledger
    agreed: when the ledger refuses the association, [associate_floating_ip]
    gives the driver no command, and when the ledger refuses to clear it
    (the address is bound to nothing), [disassociate_floating_ip] gives the
    driver no command either.  Both raise the ledger's error as it is. *)
Theorem floating_ip_driver_needs_ledger floating fixed ctx l d e l1 :
  let write := db.floating_ip_fixed_ip_associate ctx floating fixed in
  let clear := db.floating_ip_disassociate ctx floating in
  let bound := run (Base.associate_floating_ip floating fixed ctx) l d in
  let unbound := run (Base.disassociate_floating_ip floating ctx) l d in
  (on_db write l = (Err e, l1) ->
     res bound = Err e /\ commands (trace bound) = []
     /\ driver bound = d /\ ledger bound = l1)
  /\ (on_db clear l = (Err e, l1) ->
       res unbound = Err e /\ commands (trace unbound) = []
       /\ driver unbound = d /\ ledger unbound = l1).
Proof.
  intros write clear bound unbound. subst bound unbound.
  rewrite associate_floating_ip_run, disassociate_floating_ip_run. cbv zeta.
  fold write clear. split; by intros ->.
Qed.

(** X12.  A method called with a context passes that context, and no
    other, to every datastore call it makes.  The one exception is the
    host-assignment hook of the VLAN class, run on its own or at the end of
    [set_network_host]: its [db.network_get] is called without a context.
    No other method makes a call without one. *)
Theorem context_passed_on FLAGS ctx through_vlan_hook p l d :
  method FLAGS ctx through_vlan_hook p ->
  Forall (fun c => call_context c = Some ctx
                   \/ (through_vlan_hook = true
                       /\ exists network_id, c = db.network_get network_id))
    (queries (trace (run p l d))).
Proof.
  intros Hm.
  destruct Hm as [self|self| |self| | | | | | |];
    try destruct self;
    unfold Service.set_network_host, Base.set_network_host,
      Service._on_set_network_host, Service.deallocate_fixed_ip,
      Base._on_set_network_host, Flat._on_set_network_host,
      Vlan._on_set_network_host, Base.allocate_fixed_ip,
      Base.deallocate_fixed_ip, Vlan.deallocate_fixed_ip,
      Vlan.release_fixed_ip, Vlan.lease_fixed_ip, Vlan.setup_fixed_ip,
      Base.allocate_floating_ip, Base.associate_floating_ip,
      Base.disassociate_floating_ip, Base.deallocate_floating_ip;
    answers;
    repeat (apply Forall_cons; split;
            [first [by left|right; split; [done|by eexists]]|]);
    by apply Forall_nil.
Qed.

(** Like [answers], keeping what each collaborator answered. *)
Ltac answers_kept :=
  simpl;
  repeat
    (match goal with
     | |- context [on_db ?c ?l] =>
         let x := fresh "x" in
         let e := fresh "e" in
         let l' := fresh "l" in
         let H := fresh "Hdb" in
         destruct (on_db c l) as [[x|e] l'] eqn:H
     | |- context [on_driver ?c ?d] =>
         let e := fresh "e" in
         let d' := fresh "d" in
         let H := fresh "Hdrv" in
         destruct (on_driver c d) as [[[]|e] d'] eqn:H
     | |- context [if ?b then _ else _] => destruct b
     end; simpl).

(** X13.  The module raises two errors of its own, and each in one
    place.  [NotFound], with the text naming the network type that was not
    found, is raised by [type_to_class], and so by [setup_compute_network]
    and by no other function or method.  [NotImplementedError] is raised by
    the compute setup of the base class alone.  Any other error a call ends
    with is the error a datastore call or a driver command raised, passed
    on as it is; in particular the module never raises
    [AddressAlreadyAllocated] or [AddressNotAllocated] itself. *)
Theorem errors_come_from_collaborators FLAGS l d e :
  (forall network_type,
     res (run (type_to_class FLAGS network_type) l d) = Err e ->
     exists kind,
       e = NotFound ("Couldn't find " +:+ kind +:+ " network type"))
  /\ (forall p,
       operation FLAGS p ->
       res (run p l d) = Err e ->
       (exists c l', (on_db c l').1 = Err e)
       \/ (exists c d', (on_driver c d').1 = Err e)
       \/ (exists project_id kind,
             p = setup_compute_network FLAGS project_id
             /\ e = NotFound ("Couldn't find " +:+ kind +:+ " network type"))
       \/ (exists network,
             p = Service.setup_compute_network BaseNetworkService network
             /\ e = NotImplementedError)).
Proof.
  split.
  { intros network_type. rewrite type_to_class_res. cbv zeta.
    repeat case_match; intros [= <-]. by eexists. }
  intros p Hop.
  destruct Hop as [| |self| |self|self|cls| | | | | | | | |];
    try destruct self; try destruct cls;
    unfold setup_compute_network, type_to_class, get_host_for_project,
      Service.set_network_host, Base.set_network_host,
      Service._on_set_network_host, Service.deallocate_fixed_ip,
      Service.setup_compute_network, Base._on_set_network_host,
      Flat._on_set_network_host, Vlan._on_set_network_host,
      Base.setup_compute_network, Flat.setup_compute_network,
      Vlan.setup_compute_network, Base.allocate_fixed_ip,
      Base.deallocate_fixed_ip, Vlan.deallocate_fixed_ip,
      Vlan.release_fixed_ip, Vlan.lease_fixed_ip, Vlan.setup_fixed_ip,
      Vlan.__init__, Vlan.restart_nets, Base.allocate_floating_ip,
      Base.associate_floating_ip, Base.disassociate_floating_ip,
      Base.deallocate_floating_ip;
    answers_kept; intros [= <-];
    first
      [ match goal with
        | H : on_db ?c ?l' = (Err ?e', _) |- _ =>
            left; exists c, l'; by rewrite H
        end
      | match goal with
        | H : on_driver ?c ?d' = (Err ?e', _) |- _ =>
            right; left; exists c, d'; by rewrite H
        end
      | right; right; left; by eexists _, _
      | right; right; right; by eexists ].
Qed.

(** X14.  Apart from the VLAN provisioning, the VPN path of
    [setup_fixed_ip] and the two association methods for floating
    addresses, nothing in the module reaches the driver: host assignment on
    a base or flat service, every allocation, deallocation, lease and
    release, and the constructor give it no command and leave it as it was,
    whatever the datastore answers. *)
Theorem ledger_only_leaves_driver FLAGS p l d :
  ledger_only FLAGS p ->
  commands (trace (run p l d)) = [] /\ driver (run p l d) = d.
Proof.
  intros Hlo.
  assert (Hnone : commands (trace (run p l d)) = []).
  { destruct Hlo as [|self ? ? Hself|self ? ? Hself| | |self| | | | | |];
      try (destruct self; try done);
      unfold get_host_for_project,
        Service.set_network_host, Base.set_network_host,
        Service._on_set_network_host, Service.deallocate_fixed_ip,
        Service.setup_compute_network, Base._on_set_network_host,
        Flat._on_set_network_host, Flat.setup_compute_network,
        Base.allocate_fixed_ip, Base.deallocate_fixed_ip,
        Vlan.deallocate_fixed_ip, Vlan.release_fixed_ip,
        Vlan.lease_fixed_ip, Vlan.__init__, Vlan.restart_nets,
        Base.allocate_floating_ip, Base.deallocate_floating_ip;
      answers; done. }
  split; [done|]. by apply run_no_command.
Qed.

End WholeModule.

(** ** More runs on the deployment *)

(** 4.4.4.11 is bound to nothing: the ledger refuses to clear it and the
    driver is left alone. *)
Lemma ledger_before_driver_witness :
  let o :=
    run Ledger.handle obedient
      (Base.disassociate_floating_ip "4.4.4.11" None) Deployment.ledger [] in
  res o = Err AddressNotAllocated
  /\ commands (trace o) = [] /\ driver o = [].
Proof.
  intros o; subst o. split; [done|].
  destruct (ledger_before_driver Ledger.handle obedient Deployment.FLAGS
              (Base.disassociate_floating_ip "4.4.4.11" None)
              Deployment.ledger []
              (op_disassociate_floating_ip _ "4.4.4.11" None)) as [_ H].
  exact (H (db.floating_ip_disassociate None "4.4.4.11") eq_refl).
Defined.

(** A compute host of [tenantB] ensures bridge br105 on VLAN 105. *)
Lemma setup_compute_network_by_kind_witness :
  let o :=
    run Ledger.handle obedient
      (setup_compute_network Deployment.FLAGS "tenantB")
      Deployment.ledger [] in
  commands (trace o) = [_driver.ensure_vlan_bridge 105 "br105"]
  /\ driver o = [_driver.ensure_vlan_bridge 105 "br105"]
  /\ res o = Ok VNone.
Proof.
  intros o; subst o.
  destruct (setup_compute_network_by_kind Ledger.handle obedient
              Deployment.FLAGS "tenantB" Deployment.ledger []
              Deployment.netB Deployment.ledger eq_refl)
    as (_ & _ & H & _).
  exact (H eq_refl).
Defined.

(** [host2] already owns the network of [tenantB]: [host1] is told so, and
    has ensured the bridge all the same. *)
Lemma vlan_host_assignment_bridge_witness :
  let o :=
    run Ledger.handle obedient
      (Service.set_network_host Deployment.FLAGS VlanNetworkService
         "tenantB" None)
      Faults.taken [] in
  res o = Ok (VStr "host2")
  /\ driver o = [_driver.ensure_vlan_bridge 105 "br105"]
  /\ ledger o = Faults.taken.
Proof.
  intros o; subst o.
  destruct (vlan_host_assignment_bridge Ledger.handle obedient
              Deployment.FLAGS "tenantB" None Faults.taken []
              (Ledger.set_node_name (Some "host2") Deployment.netB)
              Faults.taken "host2" Faults.taken
              (Ledger.set_node_name (Some "host2") Deployment.netB)
              Faults.taken eq_refl eq_refl eq_refl)
    as (_ & Hl & Hd & Hr).
  split_and!; [exact Hr | exact Hd | exact Hl].
Defined.

Lemma vlan_hook_is_compute_setup_witness :
  let hook :=
    run Ledger.handle obedient (Vlan._on_set_network_host None 2)
      Deployment.ledger [] in
  let compute :=
    run Ledger.handle obedient (Vlan.setup_compute_network Deployment.netB)
      Deployment.ledger [] in
  driver hook = driver compute
  /\ driver compute = [_driver.ensure_vlan_bridge 105 "br105"].
Proof.
  intros hook compute; subst hook compute.
  destruct (vlan_hook_is_compute_setup Ledger.handle obedient None 2
              Deployment.ledger [] Deployment.netB Deployment.ledger eq_refl)
    as (_ & _ & _ & Hd & _).
  split; [exact Hd | done].
Defined.

(** The association is dropped: 10.0.0.3 stays allocated to nobody. *)
Lemma allocate_fixed_ip_no_compensation_witness :
  let o :=
    run (unreliable Faults.no_associate) obedient
      (Base.allocate_fixed_ip "tenantB" "i-7" None) Deployment.ledger [] in
  res o = Err (OtherError "db")
  /\ Ledger.fixed_ips Deployment.ledger !! "10.0.0.3"
     = Some (FixedIp 2 None false false)
  /\ Ledger.fixed_ips (ledger o) !! "10.0.0.3"
     = Some (FixedIp 2 None true false).
Proof.
  intros o; subst o.
  set (l1 := (Ledger.fixed_ip_allocate_address Deployment.ledger 2).2).
  destruct (allocate_fixed_ip_no_compensation (unreliable Faults.no_associate)
              obedient "tenantB" "i-7" None Deployment.ledger []
              Deployment.netB Deployment.ledger eq_refl) as [_ H].
  destruct (H "10.0.0.3" l1 (OtherError "db") l1) as (Hr & _ & Hl & _).
  - by vm_compute.
  - reflexivity.
  - split_and!; [exact Hr | by vm_compute | rewrite Hl; by vm_compute].
Defined.

(** The driver refuses the forwarding: the VPN address stays bound to the
    endpoint. *)
Lemma setup_fixed_ip_vpn_failures_witness :
  let o :=
    run Ledger.handle (refusing Faults.no_vlan_forward)
      (Vlan.setup_fixed_ip "tenantB" "vpn-instance-1" None)
      Deployment.ledger [] in
  res o = Err (OtherError "driver")
  /\ fip_instance_id <$> Ledger.fixed_ips (ledger o) !! "10.0.0.2"
     = Some (Some "vpn-instance-1").
Proof.
  intros o; subst o.
  destruct (setup_fixed_ip_vpn_failures Ledger.handle
              (refusing Faults.no_vlan_forward) "tenantB" "vpn-instance-1"
              None Deployment.ledger [] Deployment.netB Deployment.ledger
              Deployment.ledger "10.0.0.2" Deployment.ledger
              eq_refl eq_refl eq_refl) as [_ H].
  destruct (H _ (OtherError "driver") [] eq_refl eq_refl) as (Hr & Hl & _).
  split; [exact Hr | by rewrite Hl].
Defined.

Lemma setup_fixed_ip_pool_second_read_witness :
  let o :=
    run Ledger.handle obedient (Vlan.setup_fixed_ip "tenantB" "i-7" None)
      Deployment.ledger [] in
  res o = Ok (VStr "10.0.0.3")
  /\ queries (trace o) =
       [db.project_get_network None "tenantB";
        db.instance_is_vpn None "i-7";
        db.project_get_network None "tenantB";
        db.fixed_ip_allocate_address None 2;
        db.fixed_ip_instance_associate None "10.0.0.3" "i-7"].
Proof.
  intros o; subst o.
  set (l3 := (Ledger.fixed_ip_allocate_address Deployment.ledger 2).2).
  set (l4 := (Ledger.alter_fixed_ip (Ledger.set_instance (Some "i-7")) l3
                "10.0.0.3").2).
  destruct (setup_fixed_ip_pool_second_read Ledger.handle obedient "tenantB"
              "i-7" None Deployment.ledger [] Deployment.netB
              Deployment.ledger Deployment.ledger Deployment.netB
              Deployment.ledger "10.0.0.3" l3 l4) as (Hr & Ht & _).
  - reflexivity.
  - by vm_compute.
  - reflexivity.
  - by vm_compute.
  - by vm_compute.
  - split; [exact Hr | by rewrite Ht].
Defined.

(** On a flat service the leased address 10.0.0.5 loses its instance at
    once. *)
Lemma base_deallocate_fixed_ip_order_witness :
  let o :=
    run Ledger.handle obedient
      (Service.deallocate_fixed_ip FlatNetworkService "10.0.0.5" None)
      Deployment.ledger [] in
  res o = Ok VNone
  /\ Ledger.fixed_ips Deployment.ledger !! "10.0.0.5"
     = Some (FixedIp 2 (Some "i-5") true true)
  /\ Ledger.fixed_ips (ledger o) !! "10.0.0.5"
     = Some (FixedIp 2 None false true).
Proof.
  intros o; subst o.
  destruct (base_deallocate_fixed_ip_order Ledger.handle obedient
              FlatNetworkService "10.0.0.5" None Deployment.ledger [])
    as (_ & _ & _ & H); [discriminate|].
  destruct (H _ eq_refl) as (_ & Hl & Hr).
  split_and!; [exact Hr | done | by rewrite Hl].
Defined.

(** The release is dropped: 10.0.0.6 keeps its instance. *)
Lemma vlan_deallocate_fixed_ip_failures_witness :
  let o :=
    run (unreliable Faults.no_release) obedient
      (Vlan.deallocate_fixed_ip "10.0.0.6" None) Deployment.ledger [] in
  res o = Err (OtherError "db")
  /\ Ledger.fixed_ips (ledger o) !! "10.0.0.6"
     = Some (FixedIp 2 (Some "i-6") true false).
Proof.
  intros o; subst o.
  destruct (vlan_deallocate_fixed_ip_failures (unreliable Faults.no_release)
              obedient "10.0.0.6" None Deployment.ledger []) as [_ H].
  destruct (H _ _ (OtherError "db") _ eq_refl eq_refl eq_refl)
    as (Hr & _ & Hl & _).
  split; [exact Hr | by rewrite Hl].
Defined.

(** 4.4.4.99 is no floating address of the ledger: nothing is bound. *)
Lemma floating_ip_driver_needs_ledger_witness :
  let o :=
    run Ledger.handle obedient
      (Base.associate_floating_ip "4.4.4.99" "10.0.0.6" None)
      Deployment.ledger [] in
  res o = Err (NotFound "4.4.4.99") /\ driver o = []
  /\ ledger o = Deployment.ledger.
Proof.
  intros o; subst o.
  destruct (floating_ip_driver_needs_ledger Ledger.handle obedient
              "4.4.4.99" "10.0.0.6" None Deployment.ledger []
              (NotFound "4.4.4.99") Deployment.ledger) as [H _].
  destruct (H eq_refl) as (Hr & _ & Hd & Hl).
  split_and!; [exact Hr | exact Hd | exact Hl].
Defined.

Lemma context_passed_on_witness :
  Forall (fun c => call_context c = Some (Some "admin")
                   \/ (true = true
                       /\ exists network_id, c = db.network_get network_id))
    (queries
       (trace
          (run Ledger.handle obedient
             (Service.set_network_host Deployment.FLAGS VlanNetworkService
                "tenantB" (Some "admin"))
             Deployment.ledger []))).
Proof.
  apply (context_passed_on Ledger.handle obedient Deployment.FLAGS
           (Some "admin") true).
  apply (m_set_network_host _ _ VlanNetworkService).
Defined.

(** Clearing 4.4.4.11, which is bound to nothing, ends with
    [AddressNotAllocated]: the obedient driver raised nothing and the error
    is not one of the module's own, so a ledger call raised it. *)
Lemma errors_come_from_collaborators_witness :
  res (run Ledger.handle obedient
         (Base.disassociate_floating_ip "4.4.4.11" None) Deployment.ledger [])
  = Err AddressNotAllocated
  /\ exists c l', (Ledger.handle c l').1 = Err AddressNotAllocated.
Proof.
  split; [reflexivity|].
  destruct (errors_come_from_collaborators Ledger.handle obedient
              Deployment.FLAGS Deployment.ledger [] AddressNotAllocated)
    as [_ H].
  destruct (H (Base.disassociate_floating_ip "4.4.4.11" None)
              (op_disassociate_floating_ip _ "4.4.4.11" None) eq_refl)
    as [Hdb|[(c & d' & Hdrv)|[(pid & kind & _ & Hnf)|(n & _ & Hni)]]];
    [exact Hdb|discriminate..].
Defined.

Lemma ledger_only_leaves_driver_witness :
  let o :=
    run Ledger.handle (refusing Deployment.stubborn)
      (Service.set_network_host Deployment.FLAGS FlatNetworkService
         "tenantA" None)
      Deployment.ledger [] in
  commands (trace o) = [] /\ driver o = [].
Proof.
  apply (ledger_only_leaves_driver Ledger.handle
           (refusing Deployment.stubborn) Deployment.FLAGS).
  by apply lo_set_network_host.
Defined.
